(** * NexoraMix: the combo store, its client and the mixer / leaderboard handlers

    A shallow embedding of
      - the [brand_combos] relation and its [increment_votes] procedure
        (the SQL migration),
      - [supabaseOperations] (frontend/lib/supabase.js),
      - [apiService] (frontend/lib/api.js) and the axios-only [api] object,
      - the [handleGenerate] / [handleVote] handlers of both BrandMixer
        components and the statistics cards of Leaderboard.jsx.

    Asynchronous JavaScript is modelled by a state-and-exception monad over a
    [World] that holds the Supabase table, the answers of the Flask backend
    (whose code is not among these sources), and a log of every request that
    was issued.  [console] output is not modelled. *)

From stdpp Require Import gmap strings list fin_maps sorting.
From Stdlib Require Import ZArith Lia Ascii.

Open Scope Z_scope.

(** ** JavaScript strings: [trim] and [toLowerCase]

    A string is the UTF-8 encoding of the JavaScript string.  [trim] strips
    what [String.prototype.trim] strips, the white space and line
    terminators of ECMAScript: TAB, LF, VT, FF, CR, SPACE, U+00A0, U+1680,
    U+2000 to U+200A, U+2028, U+2029, U+202F, U+205F, U+3000 and U+FEFF. *)

Definition byte (c : ascii) : N := N_of_ascii c.

(** The white-space characters of one, two and three bytes. *)
Definition ws1 (a : ascii) : bool :=
  let x := byte a in ((9 <=? x) && (x <=? 13) || (x =? 32))%N.

Definition ws2 (a b : ascii) : bool :=
  ((byte a =? 0xC2) && (byte b =? 0xA0))%N.

Definition ws3 (a b c : ascii) : bool :=
  let x := byte a in
  let y := byte b in
  let z := byte c in
  ((x =? 0xE1) && (y =? 0x9A) && (z =? 0x80)
   || (x =? 0xE2) && (y =? 0x80)
      && ((0x80 <=? z) && (z <=? 0x8A) || (z =? 0xA8) || (z =? 0xA9)
          || (z =? 0xAF))
   || (x =? 0xE2) && (y =? 0x81) && (z =? 0x9F)
   || (x =? 0xE3) && (y =? 0x80) && (z =? 0x80)
   || (x =? 0xEF) && (y =? 0xBB) && (z =? 0xBF))%N.

(** The bytes that begin a white-space character of several bytes. *)
Definition lead (a : ascii) : bool :=
  let x := byte a in
  ((x =? 0xC2) || (x =? 0xE1) || (x =? 0xE2) || (x =? 0xE3) || (x =? 0xEF))%N.

(** The string without its first character, if that is white space. *)
Definition strip1 (s : string) : option string :=
  match s with
  | EmptyString => None
  | String a r =>
      if ws1 a then Some r else
      match r with
      | EmptyString => None
      | String b r' =>
          if ws2 a b then Some r' else
          match r' with
          | EmptyString => None
          | String c r'' => if ws3 a b c then Some r'' else None
          end
      end
  end.

Fixpoint trimStart (s : string) : string :=
  match s with
  | EmptyString => EmptyString
  | String a r =>
      if ws1 a then trimStart r else
      match r with
      | EmptyString => s
      | String b r' =>
          if ws2 a b then trimStart r' else
          match r' with
          | EmptyString => s
          | String c r'' => if ws3 a b c then trimStart r'' else s
          end
      end
  end.

(** A byte is dropped at the end exactly when all that follows from it on is
    white space. *)
Fixpoint trimEnd (s : string) : string :=
  match s with
  | EmptyString => EmptyString
  | String a r =>
      match trimStart s with
      | EmptyString => EmptyString
      | _ => String a (trimEnd r)
      end
  end.

Definition trim (s : string) : string := trimEnd (trimStart s).

(** [String.prototype.toLowerCase] maps by the Unicode case tables of the
    JavaScript engine, which are no part of the repository: the handlers are
    parametric in it.  All that is used of it is what it does to a string of
    ASCII characters: [A-Z] become [a-z], nothing else changes. *)
Definition lower_byte (c : ascii) : ascii :=
  let n := byte c in
  if ((65 <=? n) && (n <=? 90))%N then ascii_of_N (n + 32) else c.

Fixpoint ascii_toLowerCase (s : string) : string :=
  match s with
  | EmptyString => EmptyString
  | String c s' => String (lower_byte c) (ascii_toLowerCase s')
  end.

Fixpoint is_ascii (s : string) : bool :=
  match s with
  | EmptyString => true
  | String c s' => (byte c <? 128)%N && is_ascii s'
  end.

Class Engine : Type := {
  toLowerCase : string → string;
  toLowerCase_ascii :
    ∀ s, is_ascii s = true → toLowerCase s = ascii_toLowerCase s
}.

(** An engine to run examples on ASCII names with. *)
Definition ascii_engine : Engine :=
  {| toLowerCase := ascii_toLowerCase;
     toLowerCase_ascii := λ s _, eq_refl |}.

(** Truthiness of a JavaScript string: only the empty string is falsy. *)
Definition truthy (s : string) : bool :=
  match s with EmptyString => false | _ => true end.

(** [a || b] on an optional string ([None] is [undefined]). *)
Definition or_else (a : option string) (b : string) : string :=
  match a with
  | Some s => if truthy s then s else b
  | None => b
  end.

(** ** Identifiers, timestamps and SQL integers *)

(** A [uuid] is its 128-bit value; the textual form is not modelled. *)
Abbreviation uuid := N.
Abbreviation timestamp := Z.

(** PostgreSQL [integer] is a signed 32-bit number; arithmetic that leaves the
    range is an error ("integer out of range"), it does not wrap. *)
Definition int4_min : Z := -2147483648.
Definition int4_max : Z := 2147483647.
Definition in_int4 (z : Z) : bool := (int4_min <=? z) && (z <=? int4_max).

(** ** The persisted relation *)

(** One row of [brand_combos] without its primary key.  Only [name],
    [product1] and [product2] are declared NOT NULL; every other column is
    nullable and [None] is SQL NULL. *)
Module Row.
Record t : Type := mk {
  name : string;
  slogan : option string;
  description : option string;
  product1 : string;
  product2 : string;
  mode : option string;
  votes : option Z;
  host_reaction : option string;
  image_url : option string;
  compatibility_score : option Z;
  created_at : option timestamp;
  updated_at : option timestamp
}.

Definition with_votes (v : option Z) (upd : option timestamp) (r : t) : t :=
  mk (name r) (slogan r) (description r) (product1 r) (product2 r) (mode r)
     v (host_reaction r) (image_url r) (compatibility_score r)
     (created_at r) upd.

(** [r'] differs from [r] at most in [votes] and [updated_at]. *)
Definition same_but_votes (r r' : t) : Prop :=
  name r' = name r ∧ slogan r' = slogan r ∧ description r' = description r ∧
  product1 r' = product1 r ∧ product2 r' = product2 r ∧ mode r' = mode r ∧
  host_reaction r' = host_reaction r ∧ image_url r' = image_url r ∧
  compatibility_score r' = compatibility_score r ∧
  created_at r' = created_at r.
End Row.

(** The table: [id uuid PRIMARY KEY] makes it a finite map from ids to rows. *)
Abbreviation Table := (gmap uuid Row.t).

(** The object [generateCombo] hands to [.insert([combo])].  It always has
    these eight keys, and the client lists every key of the object in the
    request's [columns]; a [None] field is a key whose value is [undefined]
    or [null], and its column is stored as NULL, not as the column's
    default. *)
Module ComboInsert.
Record t : Type := mk {
  name : option string;
  slogan : option string;
  description : option string;
  product1 : option string;
  product2 : option string;
  mode : option string;
  votes : option Z;
  host_reaction : option string
}.
End ComboInsert.

(** ** The SQL side *)
Module Sql.

(** [votes + 1] on a nullable [integer]. *)
Definition plus_one (v : option Z) : string + option Z :=
  match v with
  | None => inr None
  | Some z => if in_int4 (z + 1) then inr (Some (z + 1))
              else inl "integer out of range"%string
  end.

(** [UPDATE brand_combos SET votes = votes + 1, updated_at = now()
     WHERE id = combo_id], the whole body of [increment_votes]. *)
Definition increment_votes (combo_id : uuid) (now : timestamp) (tbl : Table)
  : string + Table :=
  match tbl !! combo_id with
  | None => inr tbl
  | Some r =>
      match plus_one (Row.votes r) with
      | inl e => inl e
      | inr v => inr (<[combo_id := Row.with_votes v (Some now) r]> tbl)
      end
  end.

(** The row built by [INSERT]: the eight listed columns take what the object
    has (NULL where it has nothing), the columns that are not listed take the
    defaults of the [CREATE TABLE] statement. *)
Definition new_row (now : timestamp) (c : ComboInsert.t) : string + Row.t :=
  match ComboInsert.name c, ComboInsert.product1 c, ComboInsert.product2 c with
  | Some n, Some p1, Some p2 =>
      if from_option in_int4 true (ComboInsert.votes c) then
        inr (Row.mk n (ComboInsert.slogan c) (ComboInsert.description c)
               p1 p2 (ComboInsert.mode c) (ComboInsert.votes c)
               (ComboInsert.host_reaction c) None (Some 0)
               (Some now) (Some now))
      else inl "integer out of range"%string
  | _, _, _ => inl "null value violates not-null constraint"%string
  end.

(** [INSERT ... RETURNING *] with [gen_random_uuid()] having produced [id]. *)
Definition insert (id : uuid) (now : timestamp) (c : ComboInsert.t)
    (tbl : Table) : string + (uuid * Row.t) * Table :=
  match new_row now c with
  | inl e => inl e
  | inr r =>
      match tbl !! id with
      | Some _ => inl "duplicate key value violates unique constraint"%string
      | None => inr ((id, r), <[id := r]> tbl)
      end
  end.

(** [ORDER BY votes DESC]: numbers in descending order, with the rows whose
    votes is NULL all before them ([NULLS FIRST], PostgreSQL's default for a
    descending order) or all after them ([NULLS LAST], which some versions of
    the client library ask for). *)
Definition votes_ge (nulls_first : bool) (a b : option Z) : Prop :=
  match a, b with
  | Some x, Some y => y ≤ x
  | None, None => True
  | None, Some _ => nulls_first = true
  | Some _, None => nulls_first = false
  end.

Definition row_ge (nulls_first : bool) (a b : uuid * Row.t) : Prop :=
  votes_ge nulls_first (Row.votes a.2) (Row.votes b.2).

#[global] Instance votes_ge_dec nulls_first : RelDecision (votes_ge nulls_first).
Proof.
  intros [x|] [y|]; simpl; apply _.
Defined.

#[global] Instance row_ge_dec nulls_first : RelDecision (row_ge nulls_first).
Proof. intros a b. unfold row_ge. apply _. Defined.

(** [SELECT * FROM brand_combos ORDER BY votes DESC LIMIT limit].  The order
    among rows with equal votes is whatever the sort leaves. *)
Definition select_order_limit (nulls_first : bool) (limit : nat) (tbl : Table)
  : list (uuid * Row.t) :=
  take limit (merge_sort (row_ge nulls_first) (map_to_list tbl)).

(** [SELECT votes FROM brand_combos]. *)
Definition select_votes (tbl : Table) : list (option Z) :=
  (λ kr, Row.votes kr.2) <$> map_to_list tbl.

End Sql.

(** ** JavaScript values exchanged with the backend *)

(** The body of [POST /generate]. *)
Module GenerateBody.
Record t : Type := mk {
  product1 : string;
  product2 : string;
  mode : string
}.
End GenerateBody.

(** The [combo] object of a backend reply.  A [None] field is a property the
    object does not have. *)
Module Combo.
Record t : Type := mk {
  id : option uuid;
  name : option string;
  slogan : option string;
  flavor_description : option string;
  host_reaction : option string;
  components : option (string * string);
  mode : option string;
  votes : option Z
}.

Definition with_votes (v : option Z) (c : t) : t :=
  mk (id c) (name c) (slogan c) (flavor_description c) (host_reaction c)
     (components c) (mode c) v.
End Combo.

(** [response.data] of [POST /generate]. *)
Module GenerateData.
Record t : Type := mk { combo : option Combo.t }.
End GenerateData.

Module Stats.
Record t : Type := mk { totalCombos : Z; totalVotes : Z }.
End Stats.

(** ** Errors *)

Module AxiosError.
Record t : Type := mk {
  message : string;
  code : option string;
  status : option nat;
  (** [error.response?.data?.error] *)
  error : option string
}.
End AxiosError.

Inductive JsError : Type :=
| PostgrestError (message : string)
| Axios (e : AxiosError.t)
| TypeError
| Error (message : string).

(** [err.message] *)
Definition message (e : JsError) : string :=
  match e with
  | PostgrestError m => m
  | Axios a => AxiosError.message a
  | TypeError => "Cannot read properties of undefined"
  | Error m => m
  end.

(** [error.response?.data?.error] *)
Definition response_data_error (e : JsError) : option string :=
  match e with
  | Axios a => AxiosError.error a
  | _ => None
  end.

(** ** The world outside the browser *)

(** The Flask backend is not part of these sources: its replies are taken as
    given. *)
Module Backend.
Record t : Type := mk {
  generate : GenerateBody.t → AxiosError.t + GenerateData.t;
  leaderboard : nat → AxiosError.t + option (list Combo.t);
  vote : uuid → AxiosError.t + string;
  stats : AxiosError.t + Stats.t
}.
End Backend.

(** Every request that leaves the browser. *)
Inductive Call : Type :=
| POST_generate (body : GenerateBody.t)
| GET_leaderboard (limit : nat)
| POST_vote (combo_id : uuid)
| GET_stats
| select_order_limit (limit : nat)
| insert_select (c : ComboInsert.t)
| rpc_increment_votes (combo_id : uuid)
| select_votes.

(** The table is written by the operations below only; what the backend may
    store on its own is not part of this world. *)
Record World : Type := mkWorld {
  db : Table;                (* the rows of brand_combos *)
  db_up : bool;              (* whether Supabase answers *)
  nulls_first : bool;        (* where an order by votes puts NULL *)
  clock : timestamp;         (* now() *)
  entropy : nat → uuid;      (* the values gen_random_uuid() will produce *)
  draws : nat;               (* how many were drawn so far *)
  backend : Backend.t;
  log : list Call
}.

Definition logged (c : Call) (w : World) : World :=
  mkWorld (db w) (db_up w) (nulls_first w) (clock w) (entropy w) (draws w)
          (backend w) (log w ++ [c]).

Definition set_db (tbl : Table) (w : World) : World :=
  mkWorld tbl (db_up w) (nulls_first w) (clock w) (entropy w) (draws w)
          (backend w) (log w).

Definition drawn (w : World) : World :=
  mkWorld (db w) (db_up w) (nulls_first w) (clock w) (entropy w)
          (S (draws w)) (backend w) (log w).

(** ** Asynchronous code: state and exceptions *)

Inductive Outcome (A : Type) : Type :=
| Returned (a : A)
| Thrown (e : JsError).
Arguments Returned {A} a.
Arguments Thrown {A} e.

Definition Js (A : Type) : Type := World → Outcome A * World.

#[export] Instance Js_ret : MRet Js := λ A a w, (Returned a, w).

#[export] Instance Js_bind : MBind Js := λ A B f m w,
  match m w with
  | (Returned a, w') => f a w'
  | (Thrown e, w') => (Thrown e, w')
  end.

Definition throw {A} (e : JsError) : Js A := λ w, (Thrown e, w).

(** Resume with an outcome computed without touching the world. *)
Definition settle {A} (o : Outcome A) : Js A := λ w, (o, w).

(** [try { body } catch (e) { handler(e) }] *)
Definition try_catch {A} (body : Js A) (handler : JsError → Js A) : Js A :=
  λ w, match body w with
       | (Returned a, w') => (Returned a, w')
       | (Thrown e, w') => handler e w'
       end.

(** The requests issued between two worlds, and by a computation. *)
Definition calls_since (w w' : World) : list Call :=
  drop (length (log w)) (log w').

Definition calls_of {A} (m : Js A) (w : World) : list Call :=
  calls_since w (m w).2.

(** ** supabase-js: a request never throws, it answers [{ data, error }] *)

Record Reply (A : Type) : Type := mkReply {
  data : option A;
  error : option JsError
}.
Arguments mkReply {A} data error.
Arguments data {A} r.
Arguments error {A} r.

Definition unreachable {A} : Reply A :=
  mkReply None (Some (PostgrestError "TypeError: Failed to fetch")).

Module supabase.

(** [.from('brand_combos').select('*').order('votes', {ascending: false})
     .limit(limit)] *)
Definition from_select_order_limit (limit : nat)
  : Js (Reply (list (uuid * Row.t))) := λ w,
  let w := logged (select_order_limit limit) w in
  if db_up w
  then (Returned (mkReply (Some (Sql.select_order_limit (nulls_first w) limit
                                                        (db w))) None), w)
  else (Returned unreachable, w).

(** [.from('brand_combos').insert([combo]).select()] *)
Definition from_insert_select (c : ComboInsert.t)
  : Js (Reply (list (uuid * Row.t))) := λ w,
  let w := logged (insert_select c) w in
  if db_up w then
    let id := entropy w (draws w) in
    let w := drawn w in
    match Sql.insert id (clock w) c (db w) with
    | inl e => (Returned (mkReply None (Some (PostgrestError e))), w)
    | inr (row, tbl) => (Returned (mkReply (Some [row]) None), set_db tbl w)
    end
  else (Returned unreachable, w).

(** [.rpc('increment_votes', { combo_id })]; the procedure returns [void], so
    [data] is [null] also on success. *)
Definition rpc (combo_id : uuid) : Js (Reply ()) := λ w,
  let w := logged (rpc_increment_votes combo_id) w in
  if db_up w then
    match Sql.increment_votes combo_id (clock w) (db w) with
    | inl e => (Returned (mkReply None (Some (PostgrestError e))), w)
    | inr tbl => (Returned (mkReply None None), set_db tbl w)
    end
  else (Returned unreachable, w).

(** [.from('brand_combos').select('votes')] *)
Definition from_select_votes : Js (Reply (list (option Z))) := λ w,
  let w := logged select_votes w in
  if db_up w then (Returned (mkReply (Some (Sql.select_votes (db w))) None), w)
  else (Returned unreachable, w).

End supabase.

(** ** frontend/lib/supabase.js *)
Module supabaseOperations.

Definition getCombos (limit : option nat) : Js (option (list (uuid * Row.t))) :=
  let limit := default 10%nat limit in
  r ← supabase.from_select_order_limit limit;
  match error r with
  | Some e => throw e
  | None => mret (data r)
  end.

Definition createCombo (combo : ComboInsert.t) : Js (option (uuid * Row.t)) :=
  r ← supabase.from_insert_select combo;
  match error r with
  | Some e => throw e
  | None =>
      match data r with
      | None => throw TypeError          (* data[0] on null *)
      | Some rows => mret (head rows)
      end
  end.

Definition voteForCombo (comboId : uuid) : Js (option ()) :=
  r ← supabase.rpc comboId;
  match error r with
  | Some e => throw e
  | None => mret (data r)
  end.

(** [data.reduce((sum, combo) => sum + combo.votes, 0)]; a [null] votes
    counts as 0 in a JavaScript sum. *)
Definition add_votes (sum : Z) (votes : option Z) : Z := sum + default 0 votes.

Definition getStats_of (r : Reply (list (option Z))) : Outcome Stats.t :=
  match error r with
  | Some e => Thrown e
  | None =>
      match data r with
      | None => Thrown TypeError         (* data.length on null *)
      | Some rows =>
          let totalCombos := Z.of_nat (length rows) in
          let totalVotes := foldl add_votes 0 rows in
          Returned (Stats.mk totalCombos totalVotes)
      end
  end.

Definition getStats : Js Stats.t :=
  r ← supabase.from_select_votes;
  settle (getStats_of r).

End supabaseOperations.

(** ** axios: a request either yields [response.data] or rejects *)
Module axios.

(** [interceptor] is the response interceptor the instance was given; it maps
    the rejection of a request to the error the caller sees. *)
Section instance.
Variable interceptor : AxiosError.t → JsError.

Definition request {A} (c : Call) (reply : Backend.t → AxiosError.t + A)
  : Js A := λ w,
  let w := logged c w in
  match reply (backend w) with
  | inl e => (Thrown (interceptor e), w)
  | inr d => (Returned d, w)
  end.

Definition post_generate (body : GenerateBody.t) : Js GenerateData.t :=
  request (POST_generate body) (λ b, Backend.generate b body).

Definition get_leaderboard (limit : nat) : Js (option (list Combo.t)) :=
  request (GET_leaderboard limit) (λ b, Backend.leaderboard b limit).

Definition post_vote (combo_id : uuid) : Js string :=
  request (POST_vote combo_id) (λ b, Backend.vote b combo_id).

Definition get_stats : Js Stats.t :=
  request GET_stats Backend.stats.
End instance.

End axios.

(** ** frontend/lib/api.js *)
Module apiService.

(** [(error) => Promise.reject(error)] *)
Definition interceptor (e : AxiosError.t) : JsError := Axios e.

(** The block under "Save to Supabase if available". *)
Definition save_to_supabase (response_data : GenerateData.t) : Js () :=
  match GenerateData.combo response_data with
  | None => throw TypeError             (* combo.name on undefined *)
  | Some combo =>
      match Combo.components combo with
      | None => throw TypeError         (* combo.components.a on undefined *)
      | Some (a, b) =>
          supabaseOperations.createCombo
            (ComboInsert.mk (Combo.name combo) (Combo.slogan combo)
               (Combo.flavor_description combo) (Some a) (Some b)
               (Combo.mode combo) (Some 0) (Combo.host_reaction combo));;
          mret ()
      end
  end.

Definition generateCombo (product1 product2 : string) (mode : option string)
  : Js GenerateData.t :=
  let mode := default "competitive"%string mode in
  try_catch
    (response_data ← axios.post_generate interceptor
        (GenerateBody.mk (trim product1) (trim product2) mode);
     try_catch (save_to_supabase response_data)
               (λ supabaseError, mret ());;
     mret response_data)
    (λ error,
       throw (Error (or_else (response_data_error error)
                             "Failed to generate combo"))).

(** What [getLeaderboard] resolves to: [{ combos: supabaseData }] or the
    backend's [response.data]. *)
Inductive Leaderboard : Type :=
| combos_of_supabase (supabaseData : option (list (uuid * Row.t)))
| combos_of_backend (combos : option (list Combo.t)).

Definition getLeaderboard (limit : option nat) : Js Leaderboard :=
  let limit := default 10%nat limit in
  try_catch
    (supabaseData ← supabaseOperations.getCombos (Some limit);
     mret (combos_of_supabase supabaseData))
    (λ supabaseError,
       response_data ← axios.get_leaderboard interceptor limit;
       mret (combos_of_backend response_data)).

(** [voteForCombo] resolves to an object with a [status]. *)
Definition voteForCombo (comboId : uuid) : Js string :=
  try_catch
    (supabaseOperations.voteForCombo comboId;;
     mret "voted"%string)
    (λ supabaseError, axios.post_vote interceptor comboId).

Definition getStats : Js Stats.t :=
  try_catch supabaseOperations.getStats
            (λ supabaseError, mret (Stats.mk 0 0)).

(** [getStats] over an arbitrary answer of the store query. *)
Definition getStats_of (r : Reply (list (option Z))) : Outcome Stats.t :=
  match supabaseOperations.getStats_of r with
  | Returned s => Returned s
  | Thrown supabaseError => Returned (Stats.mk 0 0)
  end.

End apiService.

(** ** The axios-only client (the [api] object used by Leaderboard.jsx) *)
Module api.

Definition interceptor (e : AxiosError.t) : JsError :=
  if decide (AxiosError.code e = Some "ECONNREFUSED"%string)
  then Error "Backend service is not running"
  else if decide (AxiosError.status e = Some 404%nat)
  then Error "Requested resource not found"
  else Axios e.

Definition getStats : Js Stats.t :=
  try_catch (axios.get_stats interceptor)
    (λ error, throw (Error ("Failed to get stats: " +:+ message error))).

Definition getLeaderboard (limit : option nat) : Js (option (list Combo.t)) :=
  let limit := default 10%nat limit in
  try_catch (axios.get_leaderboard interceptor limit)
    (λ error,
       throw (Error (or_else (response_data_error error)
                             "Failed to get leaderboard"))).

Definition voteForCombo (comboId : uuid) : Js string :=
  try_catch (axios.post_vote interceptor comboId)
    (λ error,
       throw (Error (or_else (response_data_error error) "Failed to vote"))).

Definition generateCombo (product1 product2 : string) (mode : option string)
  : Js GenerateData.t :=
  let mode := default "competitive"%string mode in
  try_catch
    (axios.post_generate interceptor
       (GenerateBody.mk (trim product1) (trim product2) mode))
    (λ error,
       throw (Error (or_else (response_data_error error)
                             "Failed to generate combo"))).

End api.

(** ** The BrandMixer components *)

(** The part of the component state the handlers read and write. *)
Module Mixer.
Record State : Type := mk {
  product1 : string;
  product2 : string;
  mode : string;
  loading : bool;
  result : option Combo.t;
  error : string
}.

Definition setLoading (b : bool) (s : State) : State :=
  mk (product1 s) (product2 s) (mode s) b (result s) (error s).
Definition setError (e : string) (s : State) : State :=
  mk (product1 s) (product2 s) (mode s) (loading s) (result s) e.
Definition setResult (r : option Combo.t) (s : State) : State :=
  mk (product1 s) (product2 s) (mode s) (loading s) r (error s).
End Mixer.

(** frontend/components/BrandMixer.jsx *)
Module BrandMixer.
Import Mixer.

Definition handleGenerate {E : Engine} (s : State) : Js State :=
  if negb (truthy (trim (product1 s))) || negb (truthy (trim (product2 s)))
  then mret (setError "Please enter both brand names" s)
  else if decide (toLowerCase (product1 s) = toLowerCase (product2 s))
  then mret (setError "Please select two different brands" s)
  else
    let s := setResult None (setError "" (setLoading true s)) in
    s' ← try_catch
           (response ← apiService.generateCombo (product1 s) (product2 s)
                                                (Some (mode s));
            mret (setResult (GenerateData.combo response) s))
           (λ err,
              mret (setError (or_else (Some (message err)) "Failed to generate combo") s));
    mret (setLoading false s').

End BrandMixer.

(** The second BrandMixer component (the one with the vote button). *)
Module BrandMixer2.
Import Mixer.

Definition handleGenerate {E : Engine} (s : State) : Js State :=
  if negb (truthy (trim (product1 s))) || negb (truthy (trim (product2 s)))
  then mret (setError "Please enter both brand names" s)
  else if decide (toLowerCase (trim (product1 s))
                  = toLowerCase (trim (product2 s)))
  then mret (setError "Please select two different brands" s)
  else
    let s := setResult None (setError "" (setLoading true s)) in
    s' ← try_catch
           (response ← apiService.generateCombo (product1 s) (product2 s)
                                                (Some (mode s));
            mret (setResult (GenerateData.combo response) s))
           (λ err,
              mret (setError (or_else (Some (message err)) "Failed to generate combo. Please try again.") s));
    mret (setLoading false s').

(** [(prev.votes || 0) + 1] *)
Definition bump (prev : Combo.t) : Combo.t :=
  Combo.with_votes (Some (default 0 (Combo.votes prev) + 1)) prev.

Definition handleVote (s : State) : Js State :=
  match result s ≫= Combo.id with
  | None => mret s                                  (* if (!result?.id) return *)
  | Some id =>
      try_catch
        (apiService.voteForCombo id;;
         mret (setResult (bump <$> result s) s))
        (λ err, mret s)
  end.

End BrandMixer2.

(** ** Leaderboard.jsx *)

(** The numbers a division of two integers and [Math.round] can show. *)
Inductive JsNumber : Type :=
| finite (z : Z)
| NaN
| Infinity
| NegInfinity.

(** [Math.round(a / b)] for integers [a] and [b]: ties go up, and a zero
    divisor gives [NaN] or an infinity. *)
Definition Math_round_div (a b : Z) : JsNumber :=
  if decide (b = 0) then
    if decide (a = 0) then NaN
    else if decide (0 < a) then Infinity else NegInfinity
  else finite ((2 * a + b) / (2 * b)).

Module Leaderboard.
Record State : Type := mk {
  combos : list Combo.t;
  loading : bool;
  error : string;
  stats : Stats.t
}.

(** The state set up by the [useState] calls. *)
Definition initial : State := mk [] true "" (Stats.mk 0 0).

Definition setCombos (c : list Combo.t) (s : State) : State :=
  mk c (loading s) (error s) (stats s).
Definition setLoading (b : bool) (s : State) : State :=
  mk (combos s) b (error s) (stats s).
Definition setError (e : string) (s : State) : State :=
  mk (combos s) (loading s) e (stats s).
Definition setStats (st : Stats.t) (s : State) : State :=
  mk (combos s) (loading s) (error s) st.

Definition fetchLeaderboard (s : State) : Js State :=
  let s := setError "" (setLoading true s) in
  s' ← try_catch
         (response ← api.getLeaderboard (Some 10%nat);
          mret (setCombos (default [] response) s))
         (λ err,
            mret (setError (or_else (Some (message err))
                                    "Failed to load leaderboard") s));
  mret (setLoading false s').

Definition fetchStats (s : State) : Js State :=
  try_catch
    (statsData ← api.getStats;
     mret (setStats statsData s))
    (λ err, mret s).

(** The "Avg Votes" card:
    [combos.length > 0 ? Math.round(stats.totalVotes / stats.totalCombos) : 0].
    [division] is the division the expression carries out, if any. *)
Definition division (s : State) : option (Z * Z) :=
  if decide (0 < length (combos s))%nat
  then Some (Stats.totalVotes (stats s), Stats.totalCombos (stats s))
  else None.

Definition avgVotes (s : State) : JsNumber :=
  match division s with
  | Some (a, b) => Math_round_div a b
  | None => finite 0
  end.

End Leaderboard.

(** [handleVote] of Leaderboard.jsx, which also keeps the [votingLoading]
    object, a map from combo ids to flags. *)
Module LeaderboardVote.
Record State : Type := mk {
  view : Leaderboard.State;
  votingLoading : gmap uuid bool
}.

Definition setVotingLoading (comboId : uuid) (b : bool) (s : State) : State :=
  mk (view s) (<[comboId := b]> (votingLoading s)).
Definition setView (v : Leaderboard.State) (s : State) : State :=
  mk v (votingLoading s).

(** [combo.id === comboId ? { ...combo, votes: (combo.votes || 0) + 1 }
     : combo] *)
Definition voted (comboId : uuid) (combo : Combo.t) : Combo.t :=
  if decide (Combo.id combo = Some comboId)
  then Combo.with_votes (Some (default 0 (Combo.votes combo) + 1)) combo
  else combo.

(** [fetchStats()] is started without [await]; it catches its own errors and
    writes [stats] only, so it is run here where it is started. *)
Definition handleVote (comboId : uuid) (s : State) : Js State :=
  if decide (votingLoading s !! comboId = Some true) then mret s
  else
    s' ← try_catch
           (let s := setVotingLoading comboId true s in
            api.voteForCombo comboId;;
            let s := setView (Leaderboard.setCombos
                                (voted comboId <$> Leaderboard.combos (view s))
                                (view s)) s in
            v ← Leaderboard.fetchStats (view s);
            mret (setView v s))
           (λ err, mret (setVotingLoading comboId true s));
    mret (setVotingLoading comboId false s').

End LeaderboardVote.

(** ** The backend's [POST /generate], as the specification describes it *)
Module SpecBackend.

Definition modes : list string := ["competitive"; "collaborative"; "fusion"]%string.

(** [mode] "defaults to competitive if absent/unrecognized". *)
Definition mode_of (m : string) : string :=
  if decide (m ∈ modes) then m else "competitive"%string.

Definition ValidationError : AxiosError.t :=
  AxiosError.mk "Request failed with status code 400" None (Some 400%nat)
                (Some "ValidationError"%string).

(** Modelled from the spec: the handler of [POST /generate] of the Flask
    backend, which is not among the sources.  Following sections 4.1 and 4.4:
    the names are trimmed before use; empty or case-insensitively equal names
    are rejected with a validation error; otherwise a result is always
    produced, whose [components] echo the two names and whose [mode] is the
    requested one.  [generated] stands for the fields the text and image
    providers (or their fallbacks) fill in, and for the [id] of the row when
    the backend persisted one. *)
Definition generate {E : Engine} (generated : GenerateBody.t → Combo.t)
    (body : GenerateBody.t) : AxiosError.t + GenerateData.t :=
  let a := trim (GenerateBody.product1 body) in
  let b := trim (GenerateBody.product2 body) in
  if negb (truthy a) || negb (truthy b) then inl ValidationError
  else if decide (toLowerCase a = toLowerCase b) then inl ValidationError
  else
    let g := generated body in
    inr (GenerateData.mk (Some
      (Combo.mk (Combo.id g) (Combo.name g) (Combo.slogan g)
                (Combo.flavor_description g) (Combo.host_reaction g)
                (Some (a, b)) (Some (mode_of (GenerateBody.mode body)))
                (Combo.votes g)))).

End SpecBackend.

(** Inputs the specification calls valid: both names non-empty once trimmed
    and distinct up to case, the mode omitted or one of the three. *)
Definition valid_request {E : Engine} (entityA entityB : string)
    (mode : option string) : Prop :=
  trim entityA ≠ EmptyString ∧ trim entityB ≠ EmptyString ∧
  toLowerCase (trim entityA) ≠ toLowerCase (trim entityB) ∧
  from_option (λ m, m ∈ SpecBackend.modes) True mode.

(** ** Histories of the store *)

(** The client operations that reach the store. *)
Inductive Op : Type :=
| GenerateCombo (product1 product2 : string) (mode : option string)
| GetLeaderboard (limit : option nat)
| VoteForCombo (comboId : uuid)
| GetStats.

Definition after {A} (m : Js A) (w : World) : World := (m w).2.

Definition run (op : Op) : World → World :=
  match op with
  | GenerateCombo p1 p2 mode => after (apiService.generateCombo p1 p2 mode)
  | GetLeaderboard limit => after (apiService.getLeaderboard limit)
  | VoteForCombo comboId => after (apiService.voteForCombo comboId)
  | GetStats => after apiService.getStats
  end.

(** Between two operations anything but the rows may change: Supabase goes
    down or comes back, time passes, the backend answers differently. *)
Definition same_rows (w w' : World) : Prop := db w' = db w.

Inductive reachable : World → Prop :=
| reachable_empty w : db w = ∅ → reachable w
| reachable_run op w : reachable w → reachable (run op w)
| reachable_env w w' : reachable w → same_rows w w' → reachable w'.

(** ** The total of the [votes] column, as the specification words it *)

(** "sum of [votes] across all rows"; as in SQL's [SUM], a NULL adds
    nothing. *)
Fixpoint sum_votes (column : list (option Z)) : Z :=
  match column with
  | [] => 0
  | v :: column' => default 0 v + sum_votes column'
  end.

(** ** Sample data *)

Definition sample_row (v : option Z) : Row.t :=
  Row.mk "Nikidas" None None "Nike" "Adidas" (Some "fusion"%string) v
         None None (Some 0) (Some 0) (Some 0).

Definition silent_backend : Backend.t :=
  let down := AxiosError.mk "Network Error" (Some "ERR_NETWORK"%string)
                            None None in
  Backend.mk (λ _, inl down) (λ _, inl down) (λ _, inl down) (inl down).

Definition world_of (tbl : Table) (up : bool) (b : Backend.t) : World :=
  mkWorld tbl up true 100 (λ n, N.of_nat n + 1000)%N 0 b [].

(** Votes [5, 1, 9, 3]. *)
Definition four_rows : Table :=
  <[1%N := sample_row (Some 5)]> (<[2%N := sample_row (Some 1)]>
  (<[3%N := sample_row (Some 9)]> (<[4%N := sample_row (Some 3)]> ∅))).

(** A backend whose [/generate] always answers with an already persisted
    combo, and whose leaderboard lists it. *)
Definition persisted_combo : Combo.t :=
  Combo.mk (Some 42%N) (Some "Nikidas"%string) None None None
           (Some ("Nike", "Adidas")%string) (Some "competitive"%string)
           (Some 0).

Definition persisting_backend : Backend.t :=
  Backend.mk (λ _, inr (GenerateData.mk (Some persisted_combo)))
             (λ _, inr (Some [persisted_combo]))
             (λ _, inr "voted"%string)
             (inl (AxiosError.mk "Request failed with status code 500" None
                                 (Some 500%nat) None)).

(** * Properties *)

(** ** Strings *)

Ltac bytes :=
  unfold ws1, ws2, ws3, lead in *;
  repeat match goal with
         | H : context [byte ?a] |- _ =>
             let x := fresh "x" in
             set (x := byte a) in *; clearbody x
         | |- context [byte ?a] =>
             let x := fresh "x" in
             set (x := byte a) in *; clearbody x
         end;
  repeat progress
    rewrite ?andb_true_iff, ?orb_true_iff, ?andb_false_iff, ?orb_false_iff,
      ?N.eqb_eq, ?N.eqb_neq, ?N.leb_le, ?N.leb_gt in *;
  lia.

Lemma ws2_lead a b : ws2 a b = true → ws1 a = false ∧ lead a = true.
Proof. intros H. split; bytes. Qed.

Lemma ws3_lead a b c : ws3 a b c = true → ws1 a = false ∧ lead a = true.
Proof. intros H. split; bytes. Qed.

Lemma ws2_tail a b : ws2 a b = true → ws1 b = false ∧ lead b = false.
Proof. intros H. split; bytes. Qed.

Lemma ws3_tail a b c :
  ws3 a b c = true →
  (ws1 b = false ∧ lead b = false) ∧ (ws1 c = false ∧ lead c = false).
Proof. intros H. repeat split; bytes. Qed.

Lemma not_lead_ws2 a b : lead a = false → ws2 a b = false.
Proof. intros H. bytes. Qed.

Lemma not_lead_ws3 a b c : lead a = false → ws3 a b c = false.
Proof. intros H. bytes. Qed.

(** A byte inside a white-space character starts none. *)
Lemma strip1_inner a r :
  ws1 a = false → lead a = false → strip1 (String a r) = None.
Proof.
  intros H1 H2. simpl. rewrite H1.
  destruct r as [|b [|c r]]; [done|..];
    rewrite (not_lead_ws2 a b H2); [done|].
  by rewrite (not_lead_ws3 a b c H2).
Qed.

Lemma trimStart_unfold s :
  trimStart s = match strip1 s with Some r => trimStart r | None => s end.
Proof.
  destruct s as [|a [|b [|c r]]]; simpl; [done|..].
  - by destruct (ws1 a).
  - destruct (ws1 a); [done|]. by destruct (ws2 a b).
  - destruct (ws1 a); [done|]. destruct (ws2 a b); [done|].
    by destruct (ws3 a b c).
Qed.

Lemma strip1_app s r q : strip1 s = Some r → strip1 (s +:+ q) = Some (r +:+ q).
Proof.
  destruct s as [|a [|b [|c s]]]; simpl; [done|..].
  - destruct (ws1 a); [|done]. by intros [= <-].
  - destruct (ws1 a); [by intros [= <-]|].
    destruct (ws2 a b); [|done]. by intros [= <-].
  - destruct (ws1 a); [by intros [= <-]|].
    destruct (ws2 a b); [by intros [= <-]|].
    destruct (ws3 a b c); [|done]. by intros [= <-].
Qed.

Lemma strip1_shorter s r :
  strip1 s = Some r → (String.length r < String.length s)%nat.
Proof.
  destruct s as [|a [|b [|c s]]]; simpl; [done|..].
  - destruct (ws1 a); [|done]. intros [= <-]. simpl. lia.
  - destruct (ws1 a); [intros [= <-]; simpl; lia|].
    destruct (ws2 a b); [|done]. intros [= <-]. simpl. lia.
  - destruct (ws1 a); [intros [= <-]; simpl; lia|].
    destruct (ws2 a b); [intros [= <-]; simpl; lia|].
    destruct (ws3 a b c); [|done]. intros [= <-]. simpl. lia.
Qed.

(** What [trimStart] returns starts with no white space. *)
Lemma strip1_trimStart s : strip1 (trimStart s) = None.
Proof.
  remember (String.length s) as n eqn:Hn. revert s Hn.
  induction n as [n IH] using lt_wf_ind. intros s ->.
  rewrite trimStart_unfold. destruct (strip1 s) as [r|] eqn:E; [|done].
  eapply IH; [|done]. by apply strip1_shorter.
Qed.

Lemma trimStart_fixed s : strip1 s = None → trimStart s = s.
Proof. intros H. by rewrite trimStart_unfold, H. Qed.

Lemma trimEnd_unfold a r :
  trimEnd (String a r)
  = if truthy (trimStart (String a r)) then String a (trimEnd r)
    else EmptyString.
Proof.
  change (trimEnd (String a r)) with
    (match trimStart (String a r) with
     | EmptyString => EmptyString
     | _ => String a (trimEnd r)
     end).
  by destruct (trimStart (String a r)).
Qed.

Lemma trimEnd_prefix s : ∃ q, s = trimEnd s +:+ q.
Proof.
  induction s as [|a r [q IH]]; [by exists EmptyString|].
  rewrite trimEnd_unfold. destruct (truthy _).
  - exists q. change (String a r = String a (trimEnd r +:+ q)). by f_equal.
  - by exists (String a r).
Qed.

Lemma strip1_trimEnd s : strip1 s = None → strip1 (trimEnd s) = None.
Proof.
  intros H. destruct (strip1 (trimEnd s)) as [r|] eqn:E; [|done].
  destruct (trimEnd_prefix s) as [q Hq].
  apply (strip1_app _ _ q) in E. rewrite <- Hq in E. congruence.
Qed.

Lemma trimEnd_empty s : trimEnd s = EmptyString → trimStart s = EmptyString.
Proof.
  destruct s as [|a r]; [done|]. rewrite trimEnd_unfold.
  by destruct (trimStart (String a r)).
Qed.

(** [trimEnd] passes over a leading white-space character of a string that is
    not white space throughout. *)
Lemma trimEnd_strip1 s r :
  strip1 s = Some r → trimStart r ≠ EmptyString →
  strip1 (trimEnd s) = Some (trimEnd r).
Proof.
  intros Hs Hr.
  assert (truthy (trimStart s) = true) as Ht.
  { rewrite trimStart_unfold, Hs. by destruct (trimStart r). }
  destruct s as [|a s]; [done|].
  rewrite trimEnd_unfold, Ht. simpl in Hs.
  destruct (ws1 a) eqn:W1.
  { injection Hs as ->. simpl. by rewrite W1. }
  destruct s as [|b s]; [done|].
  destruct (ws2 a b) eqn:W2.
  { injection Hs as ->. destruct (ws2_tail a b W2) as [Hb1 Hb2].
    rewrite trimEnd_unfold, (trimStart_fixed _ (strip1_inner b r Hb1 Hb2)).
    simpl. by rewrite W1, W2. }
  destruct s as [|c s]; [done|].
  destruct (ws3 a b c) eqn:W3; [|done].
  injection Hs as ->. destruct (ws3_tail a b c W3) as [[Hb1 Hb2] [Hc1 Hc2]].
  rewrite trimEnd_unfold,
    (trimStart_fixed _ (strip1_inner b (String c r) Hb1 Hb2)).
  simpl truthy. cbv iota.
  rewrite trimEnd_unfold, (trimStart_fixed _ (strip1_inner c r Hc1 Hc2)).
  simpl. by rewrite W1, W2, W3.
Qed.

(** If what [trimEnd] leaves is white space throughout, so was the string. *)
Lemma trimStart_trimEnd_empty s :
  trimStart (trimEnd s) = EmptyString → trimStart s = EmptyString.
Proof.
  remember (String.length s) as n eqn:Hn. revert s Hn.
  induction n as [n IH] using lt_wf_ind. intros s -> H.
  destruct (strip1 s) as [r|] eqn:E.
  - destruct (decide (trimStart r = EmptyString)) as [Hr|Hr].
    + by rewrite trimStart_unfold, E.
    + rewrite trimStart_unfold, (trimEnd_strip1 s r E Hr) in H.
      rewrite trimStart_unfold, E.
      eapply IH; [|done|done]. by apply strip1_shorter.
  - rewrite (trimStart_fixed _ (strip1_trimEnd s E)) in H.
    by apply trimEnd_empty.
Qed.

Lemma trimEnd_idemp s : trimEnd (trimEnd s) = trimEnd s.
Proof.
  induction s as [|a r IH]; [done|].
  rewrite trimEnd_unfold.
  destruct (truthy (trimStart (String a r))) eqn:T; [|done].
  rewrite trimEnd_unfold, IH.
  destruct (truthy (trimStart (String a (trimEnd r)))) eqn:T'; [done|].
  exfalso.
  assert (trimStart (trimEnd (String a r)) = EmptyString) as H.
  { rewrite trimEnd_unfold, T. by destruct (trimStart (String a (trimEnd r))). }
  apply trimStart_trimEnd_empty in H. by rewrite H in T.
Qed.

Lemma trim_idemp s : trim (trim s) = trim s.
Proof.
  unfold trim.
  rewrite (trimStart_fixed (trimEnd _)).
  - apply trimEnd_idemp.
  - apply strip1_trimEnd, strip1_trimStart.
Qed.

Lemma truthy_false s : truthy s = false ↔ s = EmptyString.
Proof. by destruct s. Qed.

(** ** Requests and the log *)

Lemma calls_since_refl w : calls_since w w = [].
Proof. unfold calls_since. apply drop_all. Qed.

Lemma calls_since_logged w c : calls_since w (logged c w) = [c].
Proof. unfold calls_since. simpl. by rewrite drop_app_length. Qed.

(** ** generateCombo *)

(** Whatever the save step does, [generateCombo] hands back the backend's
    [response.data]. *)
Lemma generateCombo_returns_response_data w product1 product2 mode d w1 :
  axios.post_generate apiService.interceptor
    (GenerateBody.mk (trim product1) (trim product2)
                     (default "competitive"%string mode)) w
  = (Returned d, w1) →
  apiService.generateCombo product1 product2 mode w
  = (Returned d, (apiService.save_to_supabase d w1).2).
Proof.
  intros H. unfold apiService.generateCombo, try_catch, mbind, Js_bind.
  rewrite H. unfold mret, Js_ret.
  by destruct (apiService.save_to_supabase d w1) as [[[]|e] w2].
Qed.

Lemma createCombo_thrown_db c w e w' :
  supabaseOperations.createCombo c w = (Thrown e, w') → db w' = db w.
Proof.
  unfold supabaseOperations.createCombo, supabase.from_insert_select,
    mbind, Js_bind, throw, mret, Js_ret.
  destruct (db_up (logged (insert_select c) w)); simpl.
  - destruct (Sql.insert _ _ _ _) as [msg|[row tbl]]; simpl.
    + by intros [= <- <-].
    + done.
  - by intros [= <- <-].
Qed.

Lemma save_to_supabase_thrown_db d w e w' :
  apiService.save_to_supabase d w = (Thrown e, w') → db w' = db w.
Proof.
  unfold apiService.save_to_supabase.
  destruct (GenerateData.combo d) as [combo|]; [|by intros [= <- <-]].
  destruct (Combo.components combo) as [[a b]|]; [|by intros [= <- <-]].
  unfold mbind, Js_bind.
  destruct (supabaseOperations.createCombo _ w) as [[r|e'] w''] eqn:E.
  - done.
  - intros [= <- <-]. by eapply createCombo_thrown_db.
Qed.

Lemma post_generate_db body w o w' :
  axios.post_generate apiService.interceptor body w = (o, w') → db w' = db w.
Proof.
  unfold axios.post_generate, axios.request.
  destruct (Backend.generate _ _); by intros [= <- <-].
Qed.

(** C1, as the code has it.  When the backend answered and the save step
    fails, [generateCombo] still returns the backend's [response.data],
    unchanged, and nothing is thrown; no row was stored.  The result has an
    [id] exactly when the backend's answer carried one: the save step never
    adds or removes it.  On a result without an [id], [handleVote] returns at
    once, leaving state and world as they were and issuing no request. *)
Theorem generateCombo_survives_failed_save
    w product1 product2 mode d w1 e w2 :
  axios.post_generate apiService.interceptor
    (GenerateBody.mk (trim product1) (trim product2)
                     (default "competitive"%string mode)) w
  = (Returned d, w1) →
  apiService.save_to_supabase d w1 = (Thrown e, w2) →
  apiService.generateCombo product1 product2 mode w = (Returned d, w2)
  ∧ db w2 = db w
  ∧ ∀ s w',
      Mixer.result s = GenerateData.combo d →
      GenerateData.combo d ≫= Combo.id = None →
      BrandMixer2.handleVote s w' = (Returned s, w')
      ∧ calls_of (BrandMixer2.handleVote s) w' = [].
Proof.
  intros Hpost Hsave. split; [|split].
  - rewrite (generateCombo_returns_response_data _ _ _ _ _ _ Hpost).
    by rewrite Hsave.
  - rewrite (save_to_supabase_thrown_db _ _ _ _ Hsave).
    by eapply post_generate_db.
  - intros s w' Hres Hid.
    assert (BrandMixer2.handleVote s w' = (Returned s, w')) as Hv.
    { unfold BrandMixer2.handleVote. by rewrite Hres, Hid. }
    split; [done|]. unfold calls_of. rewrite Hv. apply calls_since_refl.
Qed.

(** A backend answering without an [id] while Supabase is down. *)
Lemma generateCombo_survives_failed_save_witness :
  let backend := Backend.mk
    (λ _, inr (GenerateData.mk
                 (Some (Combo.mk None (Some "Nikidas"%string) None None None
                          (Some ("Nike", "Adidas")%string) None None))))
    (λ _, inr None) (λ _, inr "voted"%string) (inr (Stats.mk 0 0)) in
  ∃ d w2,
    apiService.generateCombo " Nike" "Adidas " None (world_of ∅ false backend)
    = (Returned d, w2)
    ∧ db w2 = ∅.
Proof.
  intros backend.
  edestruct (generateCombo_survives_failed_save
               (world_of ∅ false backend) " Nike" "Adidas " None)
    as (H1 & H2 & _).
  - reflexivity.
  - reflexivity.
  - eexists _, _. split; [exact H1 | exact H2].
Defined.

(** C1 as stated fails: the save step fails (Supabase is down), yet the
    returned result carries the [id] the backend put in its answer, and a
    vote on it does issue requests. *)
Lemma generateCombo_failed_save_keeps_backend_id :
  let w := world_of ∅ false persisting_backend in
  ∃ d w1 e w2,
    axios.post_generate apiService.interceptor
      (GenerateBody.mk "Nike" "Adidas" "competitive") w = (Returned d, w1)
    ∧ apiService.save_to_supabase d w1 = (Thrown e, w2)
    ∧ apiService.generateCombo "Nike" "Adidas" None w = (Returned d, w2)
    ∧ GenerateData.combo d ≫= Combo.id = Some 42%N
    ∧ calls_of (BrandMixer2.handleVote
                  (Mixer.mk "Nike" "Adidas" "competitive" false
                            (GenerateData.combo d) "")) w2
      = [rpc_increment_votes 42%N; POST_vote 42%N].
Proof.
  intros w. eexists _, _, _, _.
  split; [reflexivity|]. split; [reflexivity|].
  split; [reflexivity|]. split; reflexivity.
Qed.

(** ** Voting *)

Lemma set_db_same w : set_db (db w) w = w.
Proof. by destruct w. Qed.

(** What [supabaseOperations.voteForCombo] does while Supabase answers. *)
Lemma voteForCombo_up w comboId :
  db_up w = true →
  supabaseOperations.voteForCombo comboId w =
    match Sql.increment_votes comboId (clock w) (db w) with
    | inl e => (Thrown (PostgrestError e),
                logged (rpc_increment_votes comboId) w)
    | inr tbl => (Returned None,
                  set_db tbl (logged (rpc_increment_votes comboId) w))
    end.
Proof.
  intros Hup.
  unfold supabaseOperations.voteForCombo, supabase.rpc, mbind, Js_bind.
  simpl. rewrite Hup.
  by destruct (Sql.increment_votes _ _ _).
Qed.

Lemma apiService_voteForCombo_returned w comboId d w' :
  supabaseOperations.voteForCombo comboId w = (Returned d, w') →
  apiService.voteForCombo comboId w = (Returned "voted"%string, w').
Proof.
  intros H. unfold apiService.voteForCombo, try_catch, mbind, Js_bind.
  by rewrite H.
Qed.

Lemma plus_one_in_range v :
  int4_min ≤ v < int4_max → Sql.plus_one (Some v) = inr (Some (v + 1)).
Proof.
  intros [Hlo Hhi]. unfold Sql.plus_one, in_int4, int4_min, int4_max in *.
  rewrite andb_true_intro; [done|].
  split; apply Z.leb_le; lia.
Qed.

(** C2, as the code has it.  For an existing row whose [votes] is a number
    below 2147483647, one vote is one [rpc('increment_votes')] request and
    nothing else; it sets that row's [votes] to the previous value plus 1 and
    its [updated_at] to [now()], keeps every other column of the row and
    leaves every other row as it was. *)
Theorem vote_increments_one_row w comboId r v :
  db_up w = true →
  db w !! comboId = Some r →
  Row.votes r = Some v →
  int4_min ≤ v < int4_max →
  ∃ w' r',
    supabaseOperations.voteForCombo comboId w = (Returned None, w')
    ∧ apiService.voteForCombo comboId w = (Returned "voted"%string, w')
    ∧ calls_since w w' = [rpc_increment_votes comboId]
    ∧ db w' !! comboId = Some r'
    ∧ Row.votes r' = Some (v + 1)
    ∧ Row.updated_at r' = Some (clock w)
    ∧ Row.same_but_votes r r'
    ∧ ∀ other, other ≠ comboId → db w' !! other = db w !! other.
Proof.
  intros Hup Hrow Hv Hrange.
  pose proof (voteForCombo_up w comboId Hup) as Hrun.
  unfold Sql.increment_votes in Hrun.
  rewrite Hrow, Hv, (plus_one_in_range _ Hrange) in Hrun.
  eexists _, _. split; [exact Hrun|].
  split; [by eapply apiService_voteForCombo_returned|].
  split; [|split; [|split; [|split; [|split]]]].
  - unfold calls_since. simpl. by rewrite drop_app_length.
  - simpl. apply lookup_insert_eq.
  - done.
  - done.
  - by repeat split.
  - intros other Hne. simpl. by rewrite lookup_insert_ne.
Qed.

Lemma vote_increments_one_row_witness :
  ∃ w',
    supabaseOperations.voteForCombo 3%N (world_of four_rows true silent_backend)
    = (Returned None, w')
    ∧ Row.votes <$> db w' !! 3%N = Some (Some 10)
    ∧ db w' !! 1%N = Some (sample_row (Some 5)).
Proof.
  destruct (vote_increments_one_row
              (world_of four_rows true silent_backend) 3%N
              (sample_row (Some 9)) 9)
    as (w' & r' & H1 & _ & _ & H4 & H5 & _ & _ & H8).
  - reflexivity.
  - reflexivity.
  - reflexivity.
  - unfold int4_min, int4_max. lia.
  - exists w'. split; [exact H1|]. split.
    + rewrite H4. simpl. by rewrite H5.
    + rewrite H8 by done. reflexivity.
Defined.

(** C2 as stated fails on two kinds of existing rows.  At 2147483647 the
    procedure raises "integer out of range" and the row keeps its votes; a
    row whose votes is NULL keeps NULL, only its [updated_at] moves. *)
Lemma vote_at_int4_max_or_null_adds_nothing :
  let full := world_of {[ 1%N := sample_row (Some 2147483647) ]} true
                       silent_backend in
  let null := world_of {[ 1%N := sample_row None ]} true silent_backend in
  (supabaseOperations.voteForCombo 1%N full).1
    = Thrown (PostgrestError "integer out of range")
  ∧ db (supabaseOperations.voteForCombo 1%N full).2 !! 1%N
    = Some (sample_row (Some 2147483647))
  ∧ (supabaseOperations.voteForCombo 1%N null).1 = Returned None
  ∧ Row.votes <$> db (supabaseOperations.voteForCombo 1%N null).2 !! 1%N
    = Some None.
Proof. repeat split. Qed.

(** C4, as the code has it.  A vote for an id that matches no row completes
    without any error: the [UPDATE] touches nothing, the store operation
    returns, [apiService.voteForCombo] answers [voted], and the table is
    unchanged.  There is no not-found error. *)
Theorem vote_on_missing_id_is_silent w comboId :
  db_up w = true →
  db w !! comboId = None →
  supabaseOperations.voteForCombo comboId w
  = (Returned None, logged (rpc_increment_votes comboId) w)
  ∧ apiService.voteForCombo comboId w
    = (Returned "voted"%string, logged (rpc_increment_votes comboId) w)
  ∧ db (logged (rpc_increment_votes comboId) w) = db w.
Proof.
  intros Hup Hnone.
  pose proof (voteForCombo_up w comboId Hup) as Hrun.
  unfold Sql.increment_votes in Hrun. rewrite Hnone in Hrun.
  replace (set_db (db w) (logged (rpc_increment_votes comboId) w))
    with (logged (rpc_increment_votes comboId) w) in Hrun
    by (by destruct w).
  split; [done|]. split; [|done].
  by eapply apiService_voteForCombo_returned.
Qed.

Lemma vote_on_missing_id_is_silent_witness :
  (apiService.voteForCombo 7%N (world_of four_rows true silent_backend)).1
  = Returned "voted"%string.
Proof.
  destruct (vote_on_missing_id_is_silent
              (world_of four_rows true silent_backend) 7%N) as (_ & H & _).
  - reflexivity.
  - reflexivity.
  - by rewrite H.
Defined.

(** C4 as stated fails: id 7 matches none of the four rows, and the vote
    neither throws in the store operation nor in [apiService]; the rows are
    the same afterwards. *)
Lemma vote_on_missing_id_reports_voted :
  let w := world_of four_rows true silent_backend in
  four_rows !! 7%N = None
  ∧ (supabaseOperations.voteForCombo 7%N w).1 = Returned None
  ∧ (apiService.voteForCombo 7%N w).1 = Returned "voted"%string
  ∧ db (apiService.voteForCombo 7%N w).2 = four_rows.
Proof. repeat split. Qed.

(** ** The leaderboard query *)

#[local] Instance votes_ge_total nulls_first :
  Total (Sql.votes_ge nulls_first).
Proof. intros [x|] [y|]; destruct nulls_first; simpl; auto; lia. Qed.

#[local] Instance votes_ge_trans nulls_first :
  Transitive (Sql.votes_ge nulls_first).
Proof.
  intros [x|] [y|] [z|]; destruct nulls_first; simpl; try done; lia.
Qed.

#[local] Instance row_ge_total nulls_first : Total (Sql.row_ge nulls_first).
Proof. intros a b. apply votes_ge_total. Qed.

#[local] Instance row_ge_trans nulls_first :
  Transitive (Sql.row_ge nulls_first).
Proof. intros a b c. apply votes_ge_trans. Qed.

Lemma StronglySorted_lookup {A} (R : relation A) l i j x y :
  StronglySorted R l → (i < j)%nat →
  l !! i = Some x → l !! j = Some y → R x y.
Proof.
  intros Hl. revert i j. induction Hl as [|z l Hl IH Hz]; intros i j Hij.
  - by rewrite lookup_nil.
  - destruct j as [|j]; [lia|]. destruct i as [|i]; simpl.
    + intros [= ->] Hy. eapply Forall_forall in Hz; [exact Hz|].
      by eapply list_elem_of_lookup_2.
    + apply IH. lia.
Qed.

Lemma StronglySorted_take {A} (R : relation A) n l :
  StronglySorted R l → StronglySorted R (take n l).
Proof.
  intros Hl. rewrite <- (take_drop n l) in Hl.
  by eapply StronglySorted_app_1_l.
Qed.

Lemma getCombos_up limit w :
  db_up w = true →
  supabaseOperations.getCombos limit w
  = (Returned (Some (Sql.select_order_limit (nulls_first w)
                       (default 10%nat limit) (db w))),
     logged (select_order_limit (default 10%nat limit)) w).
Proof.
  intros Hup.
  unfold supabaseOperations.getCombos, supabase.from_select_order_limit,
    mbind, Js_bind.
  simpl. by rewrite Hup.
Qed.

(** C5.  While the store answers, [getCombos] (and [getLeaderboard] on top of
    it) returns the first [limit] rows of the table sorted by [votes] in
    descending order: at most [limit] rows, no row ahead of one with more
    votes, none left out in favour of a later one.  Without an argument the
    limit is 10. *)
Theorem getCombos_top_by_votes (limit : option nat) (w : World) :
  db_up w = true →
  ∃ rows sorted,
    supabaseOperations.getCombos limit w
    = (Returned (Some rows),
       logged (select_order_limit (default 10%nat limit)) w)
    ∧ apiService.getLeaderboard limit w
      = (Returned (apiService.combos_of_supabase (Some rows)),
         logged (select_order_limit (default 10%nat limit)) w)
    ∧ sorted ≡ₚ map_to_list (db w)
    ∧ StronglySorted (Sql.row_ge (nulls_first w)) sorted
    ∧ rows = take (default 10%nat limit) sorted
    ∧ (length rows ≤ default 10%nat limit)%nat
    ∧ (∀ i j ri rj a b,
         (i < j)%nat → rows !! i = Some ri → rows !! j = Some rj →
         Row.votes ri.2 = Some a → Row.votes rj.2 = Some b → b ≤ a)
    ∧ supabaseOperations.getCombos None w
      = supabaseOperations.getCombos (Some 10%nat) w.
Proof.
  intros Hup.
  exists (Sql.select_order_limit (nulls_first w) (default 10%nat limit) (db w)),
         (merge_sort (Sql.row_ge (nulls_first w)) (map_to_list (db w))).
  pose proof (getCombos_up limit w Hup) as Hrun.
  assert (StronglySorted (Sql.row_ge (nulls_first w))
            (merge_sort (Sql.row_ge (nulls_first w)) (map_to_list (db w))))
    as Hsorted by apply (StronglySorted_merge_sort _).
  split; [done|]. split; [|split; [|split; [|split; [|split; [|split]]]]].
  - unfold apiService.getLeaderboard, try_catch, mbind, Js_bind.
    by rewrite (getCombos_up (Some (default 10%nat limit)) w Hup).
  - apply merge_sort_Permutation.
  - done.
  - done.
  - unfold Sql.select_order_limit. rewrite length_take. lia.
  - intros i j ri rj a b Hij Hi Hj Ha Hb.
    pose proof (StronglySorted_lookup _ _ i j ri rj
                  (StronglySorted_take _ (default 10%nat limit) _ Hsorted)
                  Hij Hi Hj) as Hge.
    unfold Sql.row_ge in Hge. by rewrite Ha, Hb in Hge.
  - done.
Qed.

(** The example of the specification: votes 5, 1, 9, 3 and a limit of 3. *)
Lemma getCombos_top_by_votes_witness :
  ∃ rows,
    (supabaseOperations.getCombos
       (Some 3%nat) (world_of four_rows true silent_backend)).1
    = Returned (Some rows)
    ∧ (λ kr : uuid * Row.t, Row.votes kr.2) <$> rows
      = [Some 9; Some 5; Some 3]
    ∧ (length rows ≤ 3)%nat.
Proof.
  destruct (getCombos_top_by_votes
              (Some 3%nat) (world_of four_rows true silent_backend))
    as (rows & sorted & H1 & _ & _ & _ & _ & H6 & _).
  - reflexivity.
  - exists rows. split; [by rewrite H1|]. split; [|exact H6].
    vm_compute in H1. by injection H1 as <-.
Defined.

(** ** Statistics *)

Lemma foldl_add_votes acc column :
  foldl supabaseOperations.add_votes acc column = acc + sum_votes column.
Proof.
  revert acc. induction column as [|v column IH]; intros acc; simpl.
  - lia.
  - rewrite IH. unfold supabaseOperations.add_votes. lia.
Qed.

(** The total does not depend on the order in which the rows come back. *)
Lemma sum_votes_Permutation column column' :
  column ≡ₚ column' → sum_votes column = sum_votes column'.
Proof. induction 1; simpl; lia. Qed.

Lemma getStats_up w :
  db_up w = true →
  supabaseOperations.getStats w
  = (Returned (Stats.mk (Z.of_nat (size (db w)))
                        (sum_votes (Sql.select_votes (db w)))),
     logged select_votes w).
Proof.
  intros Hup.
  unfold supabaseOperations.getStats, supabase.from_select_votes,
    mbind, Js_bind, settle, supabaseOperations.getStats_of.
  simpl. rewrite Hup. simpl.
  rewrite foldl_add_votes, Z.add_0_l.
  unfold Sql.select_votes. by rewrite length_fmap, length_map_to_list.
Qed.

(** C6.  While the store answers, [getStats] returns the number of rows as
    [totalCombos] and the sum of the [votes] column as [totalVotes]; on an
    empty table that is [{ totalCombos: 0, totalVotes: 0 }], returned, not
    thrown. *)
Theorem getStats_counts_and_sums (w : World) :
  db_up w = true →
  supabaseOperations.getStats w
  = (Returned (Stats.mk (Z.of_nat (size (db w)))
                        (sum_votes (Sql.select_votes (db w)))),
     logged select_votes w)
  ∧ (db w = ∅ →
     supabaseOperations.getStats w
     = (Returned (Stats.mk 0 0), logged select_votes w)).
Proof.
  intros Hup. split; [by apply getStats_up|].
  intros Hempty. rewrite (getStats_up w Hup), Hempty.
  unfold Sql.select_votes. by rewrite map_size_empty, map_to_list_empty.
Qed.

Lemma getStats_counts_and_sums_witness :
  (supabaseOperations.getStats (world_of four_rows true silent_backend)).1
  = Returned (Stats.mk 4 18)
  ∧ (supabaseOperations.getStats (world_of ∅ true silent_backend)).1
    = Returned (Stats.mk 0 0).
Proof.
  split.
  - destruct (getStats_counts_and_sums
                (world_of four_rows true silent_backend)) as [H _].
    + reflexivity.
    + rewrite H. reflexivity.
  - destruct (getStats_counts_and_sums
                (world_of ∅ true silent_backend)) as [_ H].
    + reflexivity.
    + by rewrite H.
Defined.

(** ** What generateCombo sends and gets back *)

Lemma createCombo_log c w :
  log (supabaseOperations.createCombo c w).2 = log w ++ [insert_select c].
Proof.
  unfold supabaseOperations.createCombo, supabase.from_insert_select,
    mbind, Js_bind, throw, mret, Js_ret.
  destruct (db_up (logged (insert_select c) w)); simpl; [|done].
  by destruct (Sql.insert _ _ _ _) as [msg|[row tbl]].
Qed.

Lemma save_to_supabase_log d w :
  ∃ calls, log (apiService.save_to_supabase d w).2 = log w ++ calls.
Proof.
  unfold apiService.save_to_supabase.
  destruct (GenerateData.combo d) as [combo|];
    [|exists []; simpl; by rewrite app_nil_r].
  destruct (Combo.components combo) as [[a b]|];
    [|exists []; simpl; by rewrite app_nil_r].
  unfold mbind, Js_bind.
  match goal with |- context [supabaseOperations.createCombo ?c w] =>
    exists [insert_select c]; rewrite <- (createCombo_log c w);
    by destruct (supabaseOperations.createCombo c w) as [[r|e] w']
  end.
Qed.

Lemma mode_of_default mode :
  from_option (λ m, m ∈ SpecBackend.modes) True mode →
  SpecBackend.mode_of (default "competitive"%string mode)
  = default "competitive"%string mode.
Proof.
  intros H. unfold SpecBackend.mode_of.
  destruct mode as [m|]; simpl in *.
  - by rewrite decide_True.
  - done.
Qed.

(** C7.  Against a backend that behaves as the specification says, every
    valid request is answered, and the result [generateCombo] returns has
    [components] equal to the two supplied names, trimmed, and [mode] equal
    to the supplied mode, or to [competitive] when none was supplied.  The
    request itself carries exactly these three values, whatever the backend
    does with them. *)
Theorem generateCombo_echoes_request {E : Engine}
    generated w entityA entityB mode :
  Backend.generate (backend w) = SpecBackend.generate generated →
  valid_request entityA entityB mode →
  ∃ d combo w' calls,
    apiService.generateCombo entityA entityB mode w = (Returned d, w')
    ∧ GenerateData.combo d = Some combo
    ∧ Combo.components combo = Some (trim entityA, trim entityB)
    ∧ Combo.mode combo = Some (default "competitive"%string mode)
    ∧ log w' = log w
               ++ POST_generate
                    (GenerateBody.mk (trim entityA) (trim entityB)
                                     (default "competitive"%string mode))
               :: calls.
Proof.
  intros Hbackend (HA & HB & Hdistinct & Hmode).
  set (body := GenerateBody.mk (trim entityA) (trim entityB)
                               (default "competitive"%string mode)).
  assert (∃ d combo,
    axios.post_generate apiService.interceptor body w
    = (Returned d, logged (POST_generate body) w)
    ∧ GenerateData.combo d = Some combo
    ∧ Combo.components combo = Some (trim entityA, trim entityB)
    ∧ Combo.mode combo = Some (default "competitive"%string mode))
    as (d & combo & Hpost & Hcombo & Hcomp & Hm).
  { unfold axios.post_generate, axios.request. simpl backend.
    rewrite Hbackend. unfold SpecBackend.generate. simpl.
    rewrite !trim_idemp.
    destruct (truthy (trim entityA)) eqn:TA;
      [|by apply truthy_false in TA].
    destruct (truthy (trim entityB)) eqn:TB;
      [|by apply truthy_false in TB].
    simpl. rewrite decide_False by done.
    eexists _, _. split; [reflexivity|]. simpl.
    by rewrite (mode_of_default mode Hmode). }
  destruct (save_to_supabase_log d (logged (POST_generate body) w))
    as [calls Hlog].
  exists d, combo, (apiService.save_to_supabase d
                      (logged (POST_generate body) w)).2, calls.
  split; [by apply generateCombo_returns_response_data|].
  split; [done|]. split; [done|]. split; [done|].
  rewrite Hlog. simpl. by rewrite <- app_assoc.
Qed.

Lemma generateCombo_echoes_request_witness :
  ∃ d combo w',
    apiService.generateCombo "  Nike " "Adidas" None
      (world_of ∅ true
         (Backend.mk (SpecBackend.generate (E := ascii_engine)
                        (λ _, persisted_combo))
                     (λ _, inr None) (λ _, inr "voted"%string)
                     (inr (Stats.mk 0 0))))
    = (Returned d, w')
    ∧ GenerateData.combo d = Some combo
    ∧ Combo.components combo = Some ("Nike", "Adidas")%string
    ∧ Combo.mode combo = Some "competitive"%string.
Proof.
  destruct (generateCombo_echoes_request (E := ascii_engine)
              (λ _, persisted_combo)
              (world_of ∅ true
                 (Backend.mk (SpecBackend.generate (E := ascii_engine)
                                (λ _, persisted_combo))
                             (λ _, inr None) (λ _, inr "voted"%string)
                             (inr (Stats.mk 0 0))))
              "  Nike " "Adidas" None)
    as (d & combo & w' & calls & H1 & H2 & H3 & H4 & _).
  - reflexivity.
  - unfold valid_request. simpl. repeat split; discriminate.
  - exists d, combo, w'. repeat split; assumption.
Defined.

(** ** How the operations change the table *)

Lemma request_db {A} i c (reply : Backend.t → AxiosError.t + A) w :
  db (axios.request i c reply w).2 = db w.
Proof. unfold axios.request. by destruct (reply _). Qed.

Lemma try_catch_after {A} (body : Js A) handler w :
  (try_catch body handler w).2
  = match (body w).1 with
    | Returned _ => (body w).2
    | Thrown e => (handler e (body w).2).2
    end.
Proof. unfold try_catch. by destruct (body w) as [[a|e] w']. Qed.

(** An insert either fails and leaves the table alone, or adds one row under
    a fresh id, built by [Sql.new_row]. *)
Lemma createCombo_db c w :
  db (supabaseOperations.createCombo c w).2 = db w
  ∨ ∃ id r, db w !! id = None ∧ Sql.new_row (clock w) c = inr r
            ∧ db (supabaseOperations.createCombo c w).2 = <[id := r]> (db w).
Proof.
  unfold supabaseOperations.createCombo, supabase.from_insert_select,
    mbind, Js_bind, throw, mret, Js_ret.
  destruct (db_up (logged (insert_select c) w)); simpl; [|by left].
  unfold Sql.insert.
  destruct (Sql.new_row (clock w) c) as [msg|r]; simpl; [by left|].
  destruct (db w !! entropy w (draws w)) eqn:E; simpl; [by left|].
  right. by exists (entropy w (draws w)), r.
Qed.

Lemma new_row_votes now c r :
  Sql.new_row now c = inr r → Row.votes r = ComboInsert.votes c.
Proof.
  unfold Sql.new_row.
  destruct (ComboInsert.name c), (ComboInsert.product1 c),
    (ComboInsert.product2 c); try done.
  destruct (from_option in_int4 true _); [|done]. by intros [= <-].
Qed.

Lemma save_to_supabase_db d w :
  db (apiService.save_to_supabase d w).2 = db w
  ∨ ∃ id r, db w !! id = None ∧ Row.votes r = Some 0
            ∧ db (apiService.save_to_supabase d w).2 = <[id := r]> (db w).
Proof.
  unfold apiService.save_to_supabase.
  destruct (GenerateData.combo d) as [combo|]; [|by left].
  destruct (Combo.components combo) as [[a b]|]; [|by left].
  unfold mbind, Js_bind.
  match goal with |- context [supabaseOperations.createCombo ?c w] =>
    destruct (createCombo_db c w) as [H|(id & r & Hid & Hr & H)];
    [left|right; exists id, r; split; [done|];
          split; [by rewrite (new_row_votes _ _ _ Hr)|]];
    destruct (supabaseOperations.createCombo c w) as [[x|e] w']; exact H
  end.
Qed.

Lemma generateCombo_db product1 product2 mode w :
  db (apiService.generateCombo product1 product2 mode w).2 = db w
  ∨ ∃ id r, db w !! id = None ∧ Row.votes r = Some 0
            ∧ db (apiService.generateCombo product1 product2 mode w).2
              = <[id := r]> (db w).
Proof.
  set (body := GenerateBody.mk (trim product1) (trim product2)
                               (default "competitive"%string mode)).
  destruct (axios.post_generate apiService.interceptor body w)
    as [[d|e] w1] eqn:Hpost.
  - rewrite (generateCombo_returns_response_data _ _ _ _ _ _ Hpost).
    simpl. rewrite <- (post_generate_db _ _ _ _ Hpost).
    apply save_to_supabase_db.
  - left. unfold apiService.generateCombo, try_catch, mbind, Js_bind.
    fold body. rewrite Hpost. simpl. by eapply post_generate_db.
Qed.

Lemma supabase_voteForCombo_db comboId w :
  db (supabaseOperations.voteForCombo comboId w).2 = db w
  ∨ ∃ r v, db w !! comboId = Some r ∧ Sql.plus_one (Row.votes r) = inr v
           ∧ db (supabaseOperations.voteForCombo comboId w).2
             = <[comboId := Row.with_votes v (Some (clock w)) r]> (db w).
Proof.
  unfold supabaseOperations.voteForCombo, supabase.rpc, mbind, Js_bind.
  destruct (db_up (logged (rpc_increment_votes comboId) w)); simpl;
    [|by left].
  unfold Sql.increment_votes.
  destruct (db w !! comboId) as [r|] eqn:Hr; simpl; [|by left].
  destruct (Sql.plus_one (Row.votes r)) as [msg|v] eqn:Hv; simpl; [by left|].
  right. by exists r, v.
Qed.

Lemma voteForCombo_db comboId w :
  db (apiService.voteForCombo comboId w).2
  = db (supabaseOperations.voteForCombo comboId w).2.
Proof.
  unfold apiService.voteForCombo. rewrite try_catch_after.
  unfold mbind, Js_bind.
  destruct (supabaseOperations.voteForCombo comboId w) as [[x|e] w']; simpl;
    [done|].
  apply request_db.
Qed.

Lemma getLeaderboard_db limit w :
  db (apiService.getLeaderboard limit w).2 = db w.
Proof.
  unfold apiService.getLeaderboard. rewrite try_catch_after.
  unfold supabaseOperations.getCombos, supabase.from_select_order_limit,
    mbind, Js_bind.
  destruct (db_up (logged _ w)); simpl; [done|].
  unfold axios.get_leaderboard.
  match goal with |- context [axios.request ?i ?c ?f ?w0] =>
    pose proof (request_db i c f w0) as H;
    destruct (axios.request i c f w0) as [[x|e] w']; exact H
  end.
Qed.

Lemma getStats_db w : db (apiService.getStats w).2 = db w.
Proof.
  unfold apiService.getStats. rewrite try_catch_after.
  unfold supabaseOperations.getStats, supabase.from_select_votes,
    mbind, Js_bind, settle.
  by destruct (db_up (logged _ w)).
Qed.

Lemma plus_one_grows v v' :
  Sql.plus_one v = inr v' →
  v' = v ∨ ∃ z, v = Some z ∧ v' = Some (z + 1).
Proof.
  destruct v as [z|]; simpl.
  - destruct (in_int4 (z + 1)); [|done]. intros [= <-]. right. by exists z.
  - intros [= <-]. by left.
Qed.

(** No operation removes a row, and only a vote for that row changes its
    [votes], by adding one. *)
Lemma run_keeps_rows op w id r :
  db w !! id = Some r →
  ∃ r', db (run op w) !! id = Some r'
        ∧ (Row.votes r' = Row.votes r
           ∨ op = VoteForCombo id
             ∧ ∃ v, Row.votes r = Some v ∧ Row.votes r' = Some (v + 1)).
Proof.
  intros Hr. destruct op as [p1 p2 mode|limit|comboId|]; unfold run, after.
  - destruct (generateCombo_db p1 p2 mode w) as [->|(id' & r' & Hid & _ & ->)].
    + exists r. by split; [|left].
    + exists r. split; [|by left].
      rewrite lookup_insert_ne; [done|]. congruence.
  - rewrite getLeaderboard_db. exists r. by split; [|left].
  - rewrite voteForCombo_db.
    destruct (supabase_voteForCombo_db comboId w)
      as [->|(r0 & v' & Hr0 & Hv & ->)].
    + exists r. by split; [|left].
    + destruct (decide (comboId = id)) as [->|Hne].
      * rewrite lookup_insert_eq. eexists; split; [done|]. simpl.
        assert (r0 = r) as -> by congruence.
        destruct (plus_one_grows _ _ Hv) as [->|(z & Hz & ->)];
          [by left|right]. split; [done|]. by exists z.
      * rewrite lookup_insert_ne by done. exists r. by split; [|left].
  - rewrite getStats_db. exists r. by split; [|left].
Qed.

(** A row that appears was inserted by [generateCombo], with votes 0. *)
Lemma run_new_rows op w id r' :
  db w !! id = None →
  db (run op w) !! id = Some r' →
  Row.votes r' = Some 0
  ∧ ∃ product1 product2 mode, op = GenerateCombo product1 product2 mode.
Proof.
  intros Hnone. destruct op as [p1 p2 mode|limit|comboId|]; unfold run, after.
  - destruct (generateCombo_db p1 p2 mode w) as [->|(id' & r & Hid & Hv & ->)].
    + congruence.
    + destruct (decide (id' = id)) as [->|Hne].
      * rewrite lookup_insert_eq. intros [= <-]. split; [done|]. eauto.
      * rewrite lookup_insert_ne by done. congruence.
  - rewrite getLeaderboard_db. congruence.
  - rewrite voteForCombo_db.
    destruct (supabase_voteForCombo_db comboId w)
      as [->|(r0 & v' & Hr0 & Hv & ->)]; [congruence|].
    destruct (decide (comboId = id)) as [->|Hne]; [congruence|].
    rewrite lookup_insert_ne by done. congruence.
  - rewrite getStats_db. congruence.
Qed.

Lemma reachable_votes_nonneg w :
  reachable w →
  ∀ id r, db w !! id = Some r → ∃ v, Row.votes r = Some v ∧ 0 ≤ v.
Proof.
  induction 1 as [w Hempty|op w Hw IH|w w' Hw IH Hsame]; intros id r Hr.
  - rewrite Hempty in Hr. by rewrite lookup_empty in Hr.
  - destruct (db w !! id) as [r0|] eqn:Hr0.
    + destruct (run_keeps_rows op w id r0 Hr0) as (r' & Hr' & Hvotes).
      assert (r' = r) as -> by congruence.
      destruct (IH id r0 Hr0) as (v & Hv & Hpos).
      destruct Hvotes as [Heq|(_ & z & Hz & Hz')].
      * exists v. split; [congruence|done].
      * exists (z + 1). split; [done|]. assert (z = v) by congruence. lia.
    + destruct (run_new_rows op w id r Hr0 Hr) as [Hzero _].
      exists 0. by split.
  - unfold same_rows in Hsame. rewrite Hsame in Hr. by apply (IH id r).
Qed.

(** C8.  In every state of the store reached through the client's
    operations, every row's [votes] is a number and it is not negative.  From
    such a state, any operation that makes a row appear is a [generateCombo]
    and the row starts with votes 0; every existing row stays, and its
    [votes] is left alone unless the operation is a vote for that row, which
    adds exactly one. *)
Theorem votes_start_at_zero_and_only_grow (w : World) :
  reachable w →
  (∀ id r, db w !! id = Some r → ∃ v, Row.votes r = Some v ∧ 0 ≤ v)
  ∧ ∀ op,
      (∀ id r', db w !! id = None → db (run op w) !! id = Some r' →
         Row.votes r' = Some 0
         ∧ ∃ product1 product2 mode, op = GenerateCombo product1 product2 mode)
      ∧ (∀ id r, db w !! id = Some r →
           ∃ r', db (run op w) !! id = Some r'
                 ∧ (Row.votes r' = Row.votes r
                    ∨ op = VoteForCombo id
                      ∧ ∃ v, Row.votes r = Some v
                             ∧ Row.votes r' = Some (v + 1))).
Proof.
  intros Hw. split; [by apply reachable_votes_nonneg|].
  intros op. split.
  - intros id r'. apply (run_new_rows op w id r').
  - intros id r. apply (run_keeps_rows op w id r).
Qed.

(** One combo generated and stored, then voted for once. *)
Lemma votes_start_at_zero_and_only_grow_witness :
  let w := run (VoteForCombo 1000%N)
             (run (GenerateCombo "Nike" "Adidas" None)
                  (world_of ∅ true persisting_backend)) in
  Row.votes <$> db w !! 1000%N = Some (Some 1)
  ∧ ∃ v, Row.votes <$> db w !! 1000%N = Some (Some v) ∧ 0 ≤ v.
Proof.
  intros w. split; [reflexivity|].
  destruct (votes_start_at_zero_and_only_grow w) as [H _].
  - do 2 apply reachable_run. by apply reachable_empty.
  - destruct (db w !! 1000%N) as [r|] eqn:E; [|vm_compute in E; discriminate].
    destruct (H 1000%N r E) as (v & Hv & Hpos).
    exists v. simpl. by rewrite Hv.
Defined.

(** ** The statistics accessor *)

(** C10.  [apiService.getStats] returns for every answer of the store query:
    the count and the sum when the query delivered rows, and
    [{ totalCombos: 0, totalVotes: 0 }] when it reported an error or no
    data.  In particular it returns the zero statistics while Supabase is
    unreachable; nothing is thrown in any case. *)
Theorem getStats_never_throws (w : World) :
  (∃ reply w',
     supabase.from_select_votes w = (Returned reply, w')
     ∧ apiService.getStats w = (apiService.getStats_of reply, w'))
  ∧ (∀ reply : Reply (list (option Z)),
       apiService.getStats_of reply
       = Returned match error reply, data reply with
                  | None, Some rows =>
                      Stats.mk (Z.of_nat (length rows)) (sum_votes rows)
                  | _, _ => Stats.mk 0 0
                  end)
  ∧ apiService.getStats w
    = (Returned (if db_up w
                 then Stats.mk (Z.of_nat (size (db w)))
                               (sum_votes (Sql.select_votes (db w)))
                 else Stats.mk 0 0),
       logged select_votes w).
Proof.
  split; [|split].
  - unfold apiService.getStats, apiService.getStats_of, try_catch,
      supabaseOperations.getStats, supabase.from_select_votes,
      mbind, Js_bind, settle.
    simpl. destruct (db_up w); eexists _, _; (split; [reflexivity|]); simpl;
      reflexivity.
  - intros [[rows|] [e|]]; unfold apiService.getStats_of,
      supabaseOperations.getStats_of; simpl; try done.
    by rewrite foldl_add_votes, Z.add_0_l.
  - unfold apiService.getStats, try_catch.
    destruct (db_up w) eqn:Hup.
    + by rewrite (getStats_up w Hup).
    + unfold supabaseOperations.getStats, supabase.from_select_votes,
        mbind, Js_bind, settle. simpl. by rewrite Hup.
Qed.

(** ** The average on the leaderboard *)

(** The guard of the "Avg Votes" card looks at the list of combos, so it holds
    back the division exactly when that list is empty. *)
Lemma division_guard s :
  Leaderboard.division s
  = match Leaderboard.combos s with
    | [] => None
    | _ :: _ => Some (Stats.totalVotes (Leaderboard.stats s),
                      Stats.totalCombos (Leaderboard.stats s))
    end.
Proof.
  unfold Leaderboard.division.
  destruct (Leaderboard.combos s) as [|c l]; [done|].
  destruct (decide _) as [|Hn]; [done|]. simpl in Hn. lia.
Qed.

(** C9 at a failing input.  The leaderboard request delivers one combo and
    the statistics request fails, so [stats] keeps its initial value
    [{ totalCombos: 0, totalVotes: 0 }] while [combos] is not empty: the card
    divides 0 by 0 and shows [NaN].  The same state is on screen between the
    two answers. *)
Theorem avgVotes_divides_by_zero_stats :
  let w := world_of ∅ true persisting_backend in
  ∃ s1 w1 s2 w2,
    Leaderboard.fetchLeaderboard Leaderboard.initial w = (Returned s1, w1)
    ∧ Leaderboard.fetchStats s1 w1 = (Returned s2, w2)
    ∧ Leaderboard.combos s2 = [persisted_combo]
    ∧ Leaderboard.stats s2 = Stats.mk 0 0
    ∧ Leaderboard.division s1 = Some (0, 0)
    ∧ Leaderboard.division s2 = Some (0, 0)
    ∧ Leaderboard.avgVotes s1 = NaN
    ∧ Leaderboard.avgVotes s2 = NaN.
Proof.
  intros w. eexists _, _, _, _.
  split; [reflexivity|]. split; [reflexivity|].
  repeat split.
Qed.

(** * Further properties of the client and the store *)

(** ** Inserting *)

(** X1.  [createCombo] either throws and leaves the table as it was, or
    returns the stored row: the id was free before, the row is found under
    it afterwards, every other id maps to what it did, and the table has one
    row more.  It never returns without a row. *)
Theorem createCombo_round_trip c w :
  match supabaseOperations.createCombo c w with
  | (Returned (Some (id, r)), w') =>
      db w !! id = None
      ∧ db w' !! id = Some r
      ∧ (∀ other, other ≠ id → db w' !! other = db w !! other)
      ∧ size (db w') = S (size (db w))
      ∧ Sql.new_row (clock w) c = inr r
  | (Returned None, _) => False
  | (Thrown _, w') => db w' = db w
  end.
Proof.
  unfold supabaseOperations.createCombo, supabase.from_insert_select,
    mbind, Js_bind, throw, mret, Js_ret.
  destruct (db_up (logged (insert_select c) w)); simpl; [|done].
  unfold Sql.insert.
  destruct (Sql.new_row (clock w) c) as [msg|r]; simpl; [done|].
  destruct (db w !! entropy w (draws w)) eqn:E; simpl; [done|].
  split; [done|]. split; [apply lookup_insert_eq|].
  split; [|split; [by apply map_size_insert_None|done]].
  intros other Hne. by rewrite lookup_insert_ne.
Qed.

(** The columns of the row an insert builds. *)
Lemma new_row_columns now c :
  match Sql.new_row now c with
  | inr r =>
      ComboInsert.name c = Some (Row.name r)
      ∧ ComboInsert.product1 c = Some (Row.product1 r)
      ∧ ComboInsert.product2 c = Some (Row.product2 r)
      ∧ Row.slogan r = ComboInsert.slogan c
      ∧ Row.description r = ComboInsert.description c
      ∧ Row.host_reaction r = ComboInsert.host_reaction c
      ∧ Row.mode r = ComboInsert.mode c
      ∧ Row.votes r = ComboInsert.votes c
      ∧ Row.image_url r = None
      ∧ Row.compatibility_score r = Some 0
      ∧ Row.created_at r = Some now
      ∧ Row.updated_at r = Some now
  | inl _ =>
      ComboInsert.name c = None ∨ ComboInsert.product1 c = None
      ∨ ComboInsert.product2 c = None
      ∨ from_option in_int4 true (ComboInsert.votes c) = false
  end.
Proof.
  unfold Sql.new_row.
  destruct (ComboInsert.name c); [|by left].
  destruct (ComboInsert.product1 c); [|by right; left].
  destruct (ComboInsert.product2 c); [|by right; right; left].
  destruct (from_option in_int4 true _) eqn:E;
    [by repeat split|by right; right; right].
Qed.

(** ** When Supabase does not answer *)

Lemma getCombos_down w limit :
  db_up w = false →
  supabaseOperations.getCombos limit w
  = (Thrown (PostgrestError "TypeError: Failed to fetch"),
     logged (select_order_limit (default 10%nat limit)) w).
Proof.
  intros Hdown.
  unfold supabaseOperations.getCombos, supabase.from_select_order_limit,
    mbind, Js_bind.
  simpl. by rewrite Hdown.
Qed.

Lemma voteForCombo_down w comboId :
  db_up w = false →
  supabaseOperations.voteForCombo comboId w
  = (Thrown (PostgrestError "TypeError: Failed to fetch"),
     logged (rpc_increment_votes comboId) w).
Proof.
  intros Hdown.
  unfold supabaseOperations.voteForCombo, supabase.rpc, mbind, Js_bind.
  simpl. by rewrite Hdown.
Qed.

(** X2.  While Supabase is unreachable, each of the four store operations
    issues its one request, throws the error of the reply and leaves the
    table alone. *)
Theorem store_operations_throw_when_down w limit c comboId :
  db_up w = false →
  let e := PostgrestError "TypeError: Failed to fetch" in
  supabaseOperations.getCombos limit w
  = (Thrown e, logged (select_order_limit (default 10%nat limit)) w)
  ∧ supabaseOperations.createCombo c w = (Thrown e, logged (insert_select c) w)
  ∧ supabaseOperations.voteForCombo comboId w
    = (Thrown e, logged (rpc_increment_votes comboId) w)
  ∧ supabaseOperations.getStats w = (Thrown e, logged select_votes w).
Proof.
  intros Hdown e.
  unfold supabaseOperations.getCombos, supabaseOperations.createCombo,
    supabaseOperations.voteForCombo, supabaseOperations.getStats,
    supabase.from_select_order_limit, supabase.from_insert_select,
    supabase.rpc, supabase.from_select_votes, mbind, Js_bind.
  simpl. by rewrite Hdown.
Qed.

Lemma store_operations_throw_when_down_witness :
  (supabaseOperations.getStats (world_of four_rows false silent_backend)).1
  = Thrown (PostgrestError "TypeError: Failed to fetch").
Proof.
  destruct (store_operations_throw_when_down
              (world_of four_rows false silent_backend) None
              (ComboInsert.mk None None None None None None None None) 1%N)
    as (_ & _ & _ & H).
  - reflexivity.
  - by rewrite H.
Defined.

(** X3.  With Supabase unreachable, [apiService.voteForCombo] asks the store
    first and the backend second, for the same id, and ends as the backend's
    [POST /vote] ends: it returns the backend's answer or throws the axios
    error unwrapped.  The table is not touched. *)
Theorem voteForCombo_falls_back_to_backend w comboId :
  db_up w = false →
  ∃ w',
    apiService.voteForCombo comboId w
    = (match Backend.vote (backend w) comboId with
       | inr status => Returned status
       | inl e => Thrown (Axios e)
       end, w')
    ∧ calls_since w w' = [rpc_increment_votes comboId; POST_vote comboId]
    ∧ db w' = db w.
Proof.
  intros Hdown.
  exists (logged (POST_vote comboId) (logged (rpc_increment_votes comboId) w)).
  split; [|split].
  - unfold apiService.voteForCombo, try_catch, mbind, Js_bind.
    rewrite (voteForCombo_down w comboId Hdown).
    unfold axios.post_vote, axios.request, apiService.interceptor. simpl.
    by destruct (Backend.vote (backend w) comboId).
  - unfold calls_since. simpl. rewrite <- app_assoc. by rewrite drop_app_length.
  - done.
Qed.

Lemma voteForCombo_falls_back_to_backend_witness :
  (apiService.voteForCombo 1%N (world_of four_rows false persisting_backend)).1
  = Returned "voted"%string.
Proof.
  destruct (voteForCombo_falls_back_to_backend
              (world_of four_rows false persisting_backend) 1%N)
    as (w' & H & _).
  - reflexivity.
  - by rewrite H.
Defined.

(** X4.  With Supabase unreachable, [apiService.getLeaderboard] asks the
    backend for the same number of entries it asked the store for (10 when no
    limit is given) and ends as that request ends, its error unwrapped. *)
Theorem getLeaderboard_falls_back_to_backend w limit :
  db_up w = false →
  ∃ w',
    apiService.getLeaderboard limit w
    = (match Backend.leaderboard (backend w) (default 10%nat limit) with
       | inr combos => Returned (apiService.combos_of_backend combos)
       | inl e => Thrown (Axios e)
       end, w')
    ∧ calls_since w w'
      = [select_order_limit (default 10%nat limit);
         GET_leaderboard (default 10%nat limit)]
    ∧ db w' = db w.
Proof.
  intros Hdown.
  exists (logged (GET_leaderboard (default 10%nat limit))
            (logged (select_order_limit (default 10%nat limit)) w)).
  split; [|split].
  - unfold apiService.getLeaderboard, try_catch, mbind, Js_bind.
    rewrite (getCombos_down w (Some (default 10%nat limit)) Hdown).
    unfold axios.get_leaderboard, axios.request, apiService.interceptor. simpl.
    by destruct (Backend.leaderboard (backend w) (default 10%nat limit)).
  - unfold calls_since. simpl. rewrite <- app_assoc. by rewrite drop_app_length.
  - done.
Qed.

Lemma getLeaderboard_falls_back_to_backend_witness :
  (apiService.getLeaderboard None
     (world_of four_rows false persisting_backend)).1
  = Returned (apiService.combos_of_backend (Some [persisted_combo])).
Proof.
  destruct (getLeaderboard_falls_back_to_backend
              (world_of four_rows false persisting_backend) None)
    as (w' & H & _).
  - reflexivity.
  - by rewrite H.
Defined.

(** ** generateCombo, end to end *)

(** X5.  When [POST /generate] is rejected, [generateCombo] throws an [Error]
    whose message is the [error] text of the backend's reply, or
    "Failed to generate combo" when the reply has none or an empty one.  The
    store is never asked: the only request is the POST. *)
Theorem generateCombo_backend_failure w product1 product2 mode e :
  let body := GenerateBody.mk (trim product1) (trim product2)
                              (default "competitive"%string mode) in
  Backend.generate (backend w) body = inl e →
  apiService.generateCombo product1 product2 mode w
  = (Thrown (Error (or_else (AxiosError.error e) "Failed to generate combo")),
     logged (POST_generate body) w)
  ∧ calls_of (apiService.generateCombo product1 product2 mode) w
    = [POST_generate body].
Proof.
  intros body Hfail.
  assert (apiService.generateCombo product1 product2 mode w
          = (Thrown (Error (or_else (AxiosError.error e)
                                    "Failed to generate combo")),
             logged (POST_generate body) w)) as Hrun.
  { unfold apiService.generateCombo, try_catch, mbind, Js_bind,
      axios.post_generate, axios.request.
    fold body. simpl backend. by rewrite Hfail. }
  split; [done|]. unfold calls_of. rewrite Hrun. apply calls_since_logged.
Qed.

Lemma generateCombo_backend_failure_witness :
  (apiService.generateCombo "Nike" "Adidas" None
     (world_of ∅ true silent_backend)).1
  = Thrown (Error "Failed to generate combo").
Proof.
  destruct (generateCombo_backend_failure
              (world_of ∅ true silent_backend) "Nike" "Adidas" None
              (AxiosError.mk "Network Error" (Some "ERR_NETWORK"%string)
                             None None)) as [H _].
  - reflexivity.
  - by rewrite H.
Defined.

(** X6.  When the backend answers with a combo that has a name and
    components, Supabase answers and the drawn id is free, [generateCombo]
    issues the POST and one insert, and the table gains exactly the row
    built from the answer: products from [components], description from
    [flavor_description], the mode of the answer (NULL if it has none),
    votes 0, no image URL, compatibility score 0, both dates [now()].  The
    caller gets the backend's answer as it is; the id of the stored row is
    the drawn one, whatever [id] the answer carries. *)
Theorem generateCombo_stores_row w product1 product2 mode d combo a b n :
  let body := GenerateBody.mk (trim product1) (trim product2)
                              (default "competitive"%string mode) in
  let id := entropy w (draws w) in
  db_up w = true →
  Backend.generate (backend w) body = inr d →
  GenerateData.combo d = Some combo →
  Combo.components combo = Some (a, b) →
  Combo.name combo = Some n →
  db w !! id = None →
  ∃ w',
    apiService.generateCombo product1 product2 mode w = (Returned d, w')
    ∧ calls_since w w'
      = [POST_generate body;
         insert_select
           (ComboInsert.mk (Some n) (Combo.slogan combo)
              (Combo.flavor_description combo) (Some a) (Some b)
              (Combo.mode combo) (Some 0) (Combo.host_reaction combo))]
    ∧ db w'
      = <[id := Row.mk n (Combo.slogan combo) (Combo.flavor_description combo)
                  a b (Combo.mode combo)
                  (Some 0) (Combo.host_reaction combo) None (Some 0)
                  (Some (clock w)) (Some (clock w))]> (db w).
Proof.
  intros body id Hup Hgen Hcombo Hcomp Hname Hfresh.
  assert (axios.post_generate apiService.interceptor body w
          = (Returned d, logged (POST_generate body) w)) as Hpost.
  { unfold axios.post_generate, axios.request. simpl backend.
    by rewrite Hgen. }
  eexists. split; [by apply generateCombo_returns_response_data|].
  unfold apiService.save_to_supabase. rewrite Hcombo, Hcomp, Hname.
  unfold supabaseOperations.createCombo, supabase.from_insert_select,
    Sql.insert, Sql.new_row, mbind, Js_bind.
  simpl. rewrite Hup. simpl. fold id. rewrite Hfresh. simpl.
  split; [|done].
  unfold calls_since. simpl. rewrite <- app_assoc. by rewrite drop_app_length.
Qed.

(** An answer without a mode: the stored row has none either. *)
Lemma generateCombo_stores_row_witness :
  let backend := Backend.mk
    (λ _, inr (GenerateData.mk
                 (Some (Combo.mk None (Some "Nikidas"%string) None None None
                          (Some ("Nike", "Adidas")%string) None None))))
    (λ _, inr None) (λ _, inr "voted"%string) (inr (Stats.mk 0 0)) in
  let w' := (apiService.generateCombo "Nike" "Adidas" None
               (world_of ∅ true backend)).2 in
  Row.product2 <$> db w' !! 1000%N = Some "Adidas"%string
  ∧ Row.mode <$> db w' !! 1000%N = Some None.
Proof.
  intros backend.
  edestruct (generateCombo_stores_row
               (world_of ∅ true backend) "Nike" "Adidas" None)
    as (w' & H1 & _ & H3).
  - reflexivity.
  - reflexivity.
  - reflexivity.
  - reflexivity.
  - reflexivity.
  - reflexivity.
  - rewrite H1. simpl. rewrite H3. split; reflexivity.
Defined.

(** ** Votes and statistics together *)

Lemma select_votes_insert_fresh (tbl : Table) id r :
  tbl !! id = None →
  Sql.select_votes (<[id := r]> tbl) ≡ₚ Row.votes r :: Sql.select_votes tbl.
Proof.
  intros Hfresh. unfold Sql.select_votes.
  by rewrite (map_to_list_insert tbl id r Hfresh).
Qed.

Lemma sum_votes_insert_fresh (tbl : Table) id r :
  tbl !! id = None →
  sum_votes (Sql.select_votes (<[id := r]> tbl))
  = default 0 (Row.votes r) + sum_votes (Sql.select_votes tbl).
Proof.
  intros Hfresh.
  by rewrite (sum_votes_Permutation _ _ (select_votes_insert_fresh _ _ r Hfresh)).
Qed.

Lemma sum_votes_update (tbl : Table) id r r' :
  tbl !! id = Some r →
  sum_votes (Sql.select_votes (<[id := r']> tbl))
  = sum_votes (Sql.select_votes tbl)
    - default 0 (Row.votes r) + default 0 (Row.votes r').
Proof.
  intros Hr.
  rewrite <- (insert_delete_id tbl id r Hr) at 2.
  rewrite <- (insert_delete_eq tbl id r').
  rewrite !sum_votes_insert_fresh by apply lookup_delete_eq. lia.
Qed.

(** One vote on a row that can take it. *)
Lemma vote_step w comboId r v :
  db_up w = true →
  db w !! comboId = Some r →
  Row.votes r = Some v →
  int4_min ≤ v < int4_max →
  apiService.voteForCombo comboId w
  = (Returned "voted"%string,
     set_db (<[comboId := Row.with_votes (Some (v + 1)) (Some (clock w)) r]>
               (db w))
            (logged (rpc_increment_votes comboId) w)).
Proof.
  intros Hup Hrow Hv Hrange.
  eapply apiService_voteForCombo_returned.
  rewrite (voteForCombo_up w comboId Hup). unfold Sql.increment_votes.
  by rewrite Hrow, Hv, (plus_one_in_range _ Hrange).
Qed.

Lemma votes_iter n w comboId r v :
  db_up w = true →
  db w !! comboId = Some r →
  Row.votes r = Some v →
  int4_min ≤ v →
  v + Z.of_nat n ≤ int4_max →
  let w' := Nat.iter n (run (VoteForCombo comboId)) w in
  db_up w' = true
  ∧ ∃ r',
      db w' !! comboId = Some r'
      ∧ Row.votes r' = Some (v + Z.of_nat n)
      ∧ Row.same_but_votes r r'
      ∧ (∀ other, other ≠ comboId → db w' !! other = db w !! other)
      ∧ log w' = log w ++ replicate n (rpc_increment_votes comboId).
Proof.
  intros Hup Hrow Hv Hlo. induction n as [|n IH]; intros Hhi; cbv zeta.
  - simpl. split; [done|]. exists r. rewrite Z.add_0_r, app_nil_r.
    by repeat split.
  - destruct IH as (Hup' & r0 & Hr0 & Hv0 & Hsame & Hothers & Hlog); [lia|].
    rewrite Nat.iter_succ.
    set (wn := Nat.iter n (run (VoteForCombo comboId)) w) in *.
    unfold run, after.
    rewrite (vote_step wn comboId r0 (v + Z.of_nat n) Hup' Hr0 Hv0) by lia.
    simpl. split; [done|]. eexists. rewrite lookup_insert_eq.
    split; [done|]. simpl. split; [f_equal; lia|].
    split; [|split].
    + destruct Hsame as (?&?&?&?&?&?&?&?&?&?). by repeat split.
    + intros other Hne. rewrite lookup_insert_ne by done. by apply Hothers.
    + rewrite Hlog, <- app_assoc. f_equal.
      change (rpc_increment_votes comboId
              :: replicate n (rpc_increment_votes comboId))
        with (replicate (S n) (rpc_increment_votes comboId)).
      by rewrite replicate_S_end.
Qed.

(** X7.  Votes cast one after the other add up: after [n] votes for a row
    whose counter can take them, its [votes] is the old value plus [n]; its
    other columns, apart from [updated_at], and all other rows are as before;
    each vote was one request. *)
Theorem votes_add_up n w comboId r v :
  db_up w = true →
  db w !! comboId = Some r →
  Row.votes r = Some v →
  int4_min ≤ v →
  v + Z.of_nat n ≤ int4_max →
  let w' := Nat.iter n (run (VoteForCombo comboId)) w in
  ∃ r',
    db w' !! comboId = Some r'
    ∧ Row.votes r' = Some (v + Z.of_nat n)
    ∧ Row.same_but_votes r r'
    ∧ (∀ other, other ≠ comboId → db w' !! other = db w !! other)
    ∧ calls_since w w' = replicate n (rpc_increment_votes comboId).
Proof.
  intros Hup Hrow Hv Hlo Hhi w'.
  destruct (votes_iter n w comboId r v Hup Hrow Hv Hlo Hhi)
    as (_ & r' & H1 & H2 & H3 & H4 & H5).
  exists r'. fold w' in H1, H4, H5.
  split; [done|]. split; [done|]. split; [done|]. split; [done|].
  unfold calls_since. rewrite H5. by rewrite drop_app_length.
Qed.

Lemma votes_add_up_witness :
  Row.votes <$>
    db (Nat.iter 3 (run (VoteForCombo 2%N))
          (world_of four_rows true silent_backend)) !! 2%N
  = Some (Some 4).
Proof.
  destruct (votes_add_up 3 (world_of four_rows true silent_backend) 2%N
              (sample_row (Some 1)) 1)
    as (r' & H1 & H2 & _).
  - reflexivity.
  - reflexivity.
  - reflexivity.
  - unfold int4_min. lia.
  - unfold int4_max. simpl. lia.
  - rewrite H1. simpl. by rewrite H2.
Defined.

(** X8.  A vote that succeeds on a row with a number of votes shows in the
    statistics read next: [totalVotes] is one higher and [totalCombos] is the
    same. *)
Theorem getStats_after_vote w comboId r v :
  db_up w = true →
  db w !! comboId = Some r →
  Row.votes r = Some v →
  int4_min ≤ v < int4_max →
  ∃ s,
    (supabaseOperations.getStats w).1 = Returned s
    ∧ (supabaseOperations.getStats
         (after (apiService.voteForCombo comboId) w)).1
      = Returned (Stats.mk (Stats.totalCombos s) (Stats.totalVotes s + 1)).
Proof.
  intros Hup Hrow Hv Hrange.
  eexists. rewrite (getStats_up w Hup). split; [reflexivity|].
  unfold after. rewrite (vote_step w comboId r v Hup Hrow Hv Hrange).
  simpl snd. rewrite getStats_up by done. simpl.
  rewrite (sum_votes_update _ _ r _ Hrow), Hv. simpl.
  rewrite map_size_insert_Some by done.
  do 2 f_equal. lia.
Qed.

Lemma getStats_after_vote_witness :
  (supabaseOperations.getStats
     (after (apiService.voteForCombo 4%N)
            (world_of four_rows true silent_backend))).1
  = Returned (Stats.mk 4 19).
Proof.
  destruct (getStats_after_vote (world_of four_rows true silent_backend) 4%N
              (sample_row (Some 3)) 3) as (s & H1 & H2).
  - reflexivity.
  - reflexivity.
  - reflexivity.
  - unfold int4_min, int4_max. lia.
  - rewrite H2. vm_compute in H1. by injection H1 as <-.
Defined.

(** ** What the leaderboard query hands out *)

(** X9.  While the store answers, [getCombos] returns as many rows as the
    limit allows and the table has: the smaller of the two numbers.  Every
    returned entry is a row of the table under its own id, and no id comes
    twice. *)
Theorem getCombos_rows_of_table limit w :
  db_up w = true →
  ∃ rows,
    (supabaseOperations.getCombos limit w).1 = Returned (Some rows)
    ∧ length rows = (default 10 limit `min` size (db w))%nat
    ∧ (∀ id r, (id, r) ∈ rows → db w !! id = Some r)
    ∧ NoDup rows.*1.
Proof.
  intros Hup. rewrite (getCombos_up limit w Hup). eexists. split; [done|].
  unfold Sql.select_order_limit.
  pose proof (merge_sort_Permutation (Sql.row_ge (nulls_first w))
                (map_to_list (db w))) as Hperm.
  split; [|split].
  - by rewrite length_take, Hperm, length_map_to_list.
  - intros id r Hin. apply elem_of_map_to_list. rewrite <- Hperm.
    eapply elem_of_sublist; [exact Hin|apply sublist_take].
  - rewrite fmap_take. eapply sublist_NoDup; [|apply sublist_take].
    rewrite Hperm. apply NoDup_fst_map_to_list.
Qed.

Lemma getCombos_rows_of_table_witness :
  ∃ rows,
    (supabaseOperations.getCombos None
       (world_of four_rows true silent_backend)).1 = Returned (Some rows)
    ∧ length rows = 4%nat.
Proof.
  destruct (getCombos_rows_of_table None
              (world_of four_rows true silent_backend))
    as (rows & H1 & H2 & _).
  - reflexivity.
  - exists rows. split; [exact H1|]. rewrite H2. reflexivity.
Defined.

(** ** The vote button of the mixer *)

(** X10.  [handleVote] raises the shown count whenever
    [apiService.voteForCombo] returns, and that includes a vote for an id the
    table does not have: the screen then shows one vote more (counting from 0
    if none was shown) while no row changed. *)
Theorem handleVote_counts_a_vote_on_no_row s w combo id :
  Mixer.result s = Some combo →
  Combo.id combo = Some id →
  db_up w = true →
  db w !! id = None →
  ∃ w',
    BrandMixer2.handleVote s w
    = (Returned (Mixer.setResult
                   (Some (Combo.with_votes
                            (Some (default 0 (Combo.votes combo) + 1)) combo))
                   s), w')
    ∧ db w' = db w
    ∧ calls_since w w' = [rpc_increment_votes id].
Proof.
  intros Hres Hid Hup Hnone.
  pose proof (voteForCombo_up w id Hup) as Hrun.
  unfold Sql.increment_votes in Hrun. rewrite Hnone in Hrun.
  apply apiService_voteForCombo_returned in Hrun.
  eexists. split; [|split].
  - unfold BrandMixer2.handleVote, try_catch, mbind at 2, Js_bind.
    rewrite Hres. simpl. rewrite Hid, Hrun. reflexivity.
  - done.
  - unfold calls_since. simpl. by rewrite drop_app_length.
Qed.

Lemma handleVote_counts_a_vote_on_no_row_witness :
  let s := Mixer.mk "Nike" "Adidas" "fusion" false (Some persisted_combo) "" in
  ∃ s' w',
    BrandMixer2.handleVote s (world_of four_rows true silent_backend)
    = (Returned s', w')
    ∧ (Mixer.result s' ≫= Combo.votes) = Some 1
    ∧ db w' = four_rows.
Proof.
  intros s.
  destruct (handleVote_counts_a_vote_on_no_row s
              (world_of four_rows true silent_backend) persisted_combo 42%N)
    as (w' & H1 & H2 & _).
  - reflexivity.
  - reflexivity.
  - reflexivity.
  - reflexivity.
  - eexists _, w'. split; [exact H1|]. split; [reflexivity|exact H2].
Defined.

(** X11.  A vote that fails everywhere is swallowed: with Supabase
    unreachable and the backend rejecting [POST /vote], [handleVote] returns
    normally and the component state, its [error] text included, is what it
    was. *)
Theorem handleVote_failure_is_silent s w combo id e :
  Mixer.result s = Some combo →
  Combo.id combo = Some id →
  db_up w = false →
  Backend.vote (backend w) id = inl e →
  ∃ w',
    BrandMixer2.handleVote s w = (Returned s, w')
    ∧ calls_since w w' = [rpc_increment_votes id; POST_vote id]
    ∧ db w' = db w.
Proof.
  intros Hres Hid Hdown Hreject.
  exists (logged (POST_vote id) (logged (rpc_increment_votes id) w)).
  split; [|split].
  - unfold BrandMixer2.handleVote, apiService.voteForCombo, try_catch,
      mbind at 2 3, Js_bind.
    rewrite Hres. simpl. rewrite Hid.
    rewrite (voteForCombo_down w id Hdown).
    unfold axios.post_vote, axios.request. simpl backend.
    by rewrite Hreject.
  - unfold calls_since. simpl. rewrite <- app_assoc. by rewrite drop_app_length.
  - done.
Qed.

Lemma handleVote_failure_is_silent_witness :
  let s := Mixer.mk "Nike" "Adidas" "fusion" false (Some persisted_combo) "" in
  (BrandMixer2.handleVote s (world_of four_rows false silent_backend)).1
  = Returned s.
Proof.
  intros s.
  edestruct (handleVote_failure_is_silent s
               (world_of four_rows false silent_backend) persisted_combo 42%N)
    as (w' & H & _).
  - reflexivity.
  - reflexivity.
  - reflexivity.
  - reflexivity.
  - by rewrite H.
Defined.

(** ** The leaderboard component *)

Lemma or_else_truthy a b : truthy b = true → truthy (or_else a b) = true.
Proof.
  intros Hb. destruct a as [s|]; simpl; [|done].
  by destruct (truthy s) eqn:E.
Qed.

Lemma or_else_keeps a b : truthy a = true → or_else (Some a) b = a.
Proof. intros Ha. simpl. by rewrite Ha. Qed.

(** X12.  [fetchLeaderboard] never throws and always ends with [loading]
    off, after one request for ten entries.  When the backend answers, the
    list is replaced by the answer (by the empty list if the answer has no
    [combos]) and the error text is cleared; when it does not, the list on
    screen stays and a non-empty error text is set.  [stats] is not
    touched. *)
Theorem fetchLeaderboard_outcomes s w :
  ∃ s',
    Leaderboard.fetchLeaderboard s w
    = (Returned s', logged (GET_leaderboard 10) w)
    ∧ Leaderboard.loading s' = false
    ∧ Leaderboard.stats s' = Leaderboard.stats s
    ∧ match Backend.leaderboard (backend w) 10%nat with
      | inr combos =>
          Leaderboard.combos s' = default [] combos
          ∧ Leaderboard.error s' = EmptyString
      | inl e =>
          Leaderboard.combos s' = Leaderboard.combos s
          ∧ Leaderboard.error s'
            = or_else (response_data_error (api.interceptor e))
                      "Failed to get leaderboard"
          ∧ truthy (Leaderboard.error s') = true
      end.
Proof.
  unfold Leaderboard.fetchLeaderboard, api.getLeaderboard, try_catch,
    mbind, Js_bind, axios.get_leaderboard, axios.request, throw, mret, Js_ret.
  simpl.
  destruct (Backend.leaderboard (backend w) 10%nat) as [e|combos]; simpl.
  - eexists. split; [reflexivity|]. simpl.
    assert (truthy (or_else (response_data_error (api.interceptor e))
                            "Failed to get leaderboard") = true) as Ht
      by by apply or_else_truthy.
    rewrite Ht. by repeat split.
  - eexists. split; [reflexivity|]. by repeat split.
Qed.

(** [fetchStats] never throws and writes [stats] only: the backend's numbers
    when [GET /stats] answers, the numbers already on screen when it does
    not. *)
Lemma fetchStats_run s w :
  Leaderboard.fetchStats s w
  = (Returned (Leaderboard.setStats
                 (match Backend.stats (backend w) with
                  | inr statsData => statsData
                  | inl _ => Leaderboard.stats s
                  end) s),
     logged GET_stats w).
Proof.
  unfold Leaderboard.fetchStats, api.getStats, try_catch,
    mbind, Js_bind, axios.get_stats, axios.request, throw, mret, Js_ret.
  simpl. destruct (Backend.stats (backend w)) as [e|st]; simpl; [|done].
  by destruct s.
Qed.

(** X13.  [handleVote] of the leaderboard never throws.  For an id whose
    button is busy it does nothing.  Otherwise it posts the vote and leaves
    the button free again; if the backend accepted, every listed combo with
    that id shows one vote more, the others are as before, and the
    statistics are fetched again (and replaced if that request answers); if
    the backend refused, the list and the statistics stay as they were and
    nothing else is requested. *)
Theorem Leaderboard_handleVote_outcomes comboId s w :
  (LeaderboardVote.votingLoading s !! comboId = Some true →
   LeaderboardVote.handleVote comboId s w = (Returned s, w))
  ∧ (LeaderboardVote.votingLoading s !! comboId ≠ Some true →
     ∃ s' w',
       LeaderboardVote.handleVote comboId s w = (Returned s', w')
       ∧ LeaderboardVote.votingLoading s'
         = <[comboId := false]> (LeaderboardVote.votingLoading s)
       ∧ match Backend.vote (backend w) comboId with
         | inr _ =>
             Leaderboard.combos (LeaderboardVote.view s')
             = LeaderboardVote.voted comboId
                 <$> Leaderboard.combos (LeaderboardVote.view s)
             ∧ Leaderboard.stats (LeaderboardVote.view s')
               = match Backend.stats (backend w) with
                 | inr statsData => statsData
                 | inl _ => Leaderboard.stats (LeaderboardVote.view s)
                 end
             ∧ calls_since w w' = [POST_vote comboId; GET_stats]
         | inl _ =>
             LeaderboardVote.view s' = LeaderboardVote.view s
             ∧ calls_since w w' = [POST_vote comboId]
         end).
Proof.
  split.
  - intros Hbusy. unfold LeaderboardVote.handleVote.
    by rewrite decide_True.
  - intros Hfree. unfold LeaderboardVote.handleVote.
    rewrite decide_False by done.
    unfold api.voteForCombo, try_catch, mbind, Js_bind,
      axios.post_vote, axios.request, throw, mret, Js_ret.
    simpl backend.
    destruct (Backend.vote (backend w) comboId) as [e|status]; simpl.
    + eexists _, _. split; [reflexivity|]. simpl.
      split; [by rewrite insert_insert_eq|]. split; [done|].
      unfold calls_since. simpl. by rewrite drop_app_length.
    + rewrite fetchStats_run. simpl.
      eexists _, _. split; [reflexivity|]. simpl.
      split; [by rewrite insert_insert_eq|]. split; [done|]. split; [done|].
      unfold calls_since. simpl. rewrite <- app_assoc.
      by rewrite drop_app_length.
Qed.

Lemma Leaderboard_handleVote_outcomes_witness :
  let s := LeaderboardVote.mk
             (Leaderboard.mk [persisted_combo] false "" (Stats.mk 1 0)) ∅ in
  ∃ s' w',
    LeaderboardVote.handleVote 42%N s (world_of ∅ true persisting_backend)
    = (Returned s', w')
    ∧ Combo.votes <$> Leaderboard.combos (LeaderboardVote.view s') = [Some 1]
    ∧ LeaderboardVote.votingLoading s' !! 42%N = Some false.
Proof.
  intros s.
  destruct (Leaderboard_handleVote_outcomes 42%N s
              (world_of ∅ true persisting_backend)) as [_ H].
  destruct H as (s' & w' & H1 & H2 & H3 & _).
  - discriminate.
  - exists s', w'. split; [exact H1|]. split.
    + rewrite H3. reflexivity.
    + rewrite H2. apply lookup_insert_eq.
Defined.

(** ** Error texts of the axios-only client *)

(** X14.  When the backend refuses the connection or answers 404, the
    interceptor replaces the axios error by a plain [Error], so the [error]
    text of the reply is lost: [voteForCombo], [getLeaderboard] and
    [generateCombo] then throw their fixed default text, whatever the backend
    sent.  For any other rejection they throw the backend's text, or the
    default if there is none. *)
Theorem api_error_texts w comboId limit product1 product2 mode :
  let text (e : AxiosError.t) (fallback : string) : string :=
    if decide (AxiosError.code e = Some "ECONNREFUSED"%string
               ∨ AxiosError.status e = Some 404%nat)
    then fallback else or_else (AxiosError.error e) fallback in
  let body := GenerateBody.mk (trim product1) (trim product2)
                              (default "competitive"%string mode) in
  (∀ e, Backend.vote (backend w) comboId = inl e →
        api.voteForCombo comboId w
        = (Thrown (Error (text e "Failed to vote")),
           logged (POST_vote comboId) w))
  ∧ (∀ e, Backend.leaderboard (backend w) (default 10%nat limit) = inl e →
          api.getLeaderboard limit w
          = (Thrown (Error (text e "Failed to get leaderboard")),
             logged (GET_leaderboard (default 10%nat limit)) w))
  ∧ (∀ e, Backend.generate (backend w) body = inl e →
          api.generateCombo product1 product2 mode w
          = (Thrown (Error (text e "Failed to generate combo")),
             logged (POST_generate body) w)).
Proof.
  intros text body.
  assert (∀ e fallback,
            or_else (response_data_error (api.interceptor e)) fallback
            = text e fallback) as Htext.
  { intros e fallback. unfold text, api.interceptor.
    destruct (decide (AxiosError.code e = Some "ECONNREFUSED"%string))
      as [Hc|Hc].
    - by rewrite decide_True by by left.
    - destruct (decide (AxiosError.status e = Some 404%nat)) as [Hs|Hs].
      + by rewrite decide_True by by right.
      + rewrite decide_False by (intros [?|?]; done). done. }
  split; [|split]; intros e He.
  - unfold api.voteForCombo, try_catch, axios.post_vote, axios.request, throw.
    simpl backend. by rewrite He, Htext.
  - unfold api.getLeaderboard, try_catch, axios.get_leaderboard,
      axios.request, throw.
    simpl backend. by rewrite He, Htext.
  - unfold api.generateCombo, try_catch, axios.post_generate,
      axios.request, throw.
    fold body. simpl backend. by rewrite He, Htext.
Qed.

Lemma api_error_texts_witness :
  let w := world_of ∅ true
    (Backend.mk (λ _, inr (GenerateData.mk None)) (λ _, inr None)
       (λ _, inl (AxiosError.mk "Request failed with status code 404" None
                    (Some 404%nat) (Some "Combo not found"%string)))
       (inr (Stats.mk 0 0))) in
  (api.voteForCombo 7%N w).1 = Thrown (Error "Failed to vote").
Proof.
  intros w.
  destruct (api_error_texts w 7%N None "" "" None) as (H & _ & _).
  by rewrite (H _ eq_refl).
Defined.

(** ** The generate button *)

(** What [apiService.generateCombo] ends with, and that its first request is
    the POST. *)
Lemma generateCombo_run w product1 product2 mode :
  let body := GenerateBody.mk (trim product1) (trim product2)
                              (default "competitive"%string mode) in
  ∃ w' rest,
    apiService.generateCombo product1 product2 mode w
    = (match Backend.generate (backend w) body with
       | inr d => Returned d
       | inl e => Thrown (Error (or_else (AxiosError.error e)
                                         "Failed to generate combo"))
       end, w')
    ∧ log w' = log w ++ POST_generate body :: rest.
Proof.
  intros body.
  destruct (Backend.generate (backend w) body) as [e|d] eqn:Hreply.
  - exists (logged (POST_generate body) w), [].
    split; [|done].
    unfold apiService.generateCombo, try_catch, mbind, Js_bind,
      axios.post_generate, axios.request.
    fold body. simpl backend. by rewrite Hreply.
  - assert (axios.post_generate apiService.interceptor body w
            = (Returned d, logged (POST_generate body) w)) as Hpost.
    { unfold axios.post_generate, axios.request. simpl backend.
      by rewrite Hreply. }
    destruct (save_to_supabase_log d (logged (POST_generate body) w))
      as [rest Hlog].
    exists (apiService.save_to_supabase d (logged (POST_generate body) w)).2,
           rest.
    split; [by apply generateCombo_returns_response_data|].
    rewrite Hlog. simpl. by rewrite <- app_assoc.
Qed.

(** The block both [handleGenerate]s run once the inputs are accepted, for
    either fallback text. *)
Lemma mixer_generate_run (fallback : string) s w :
  let body := GenerateBody.mk (trim (Mixer.product1 s))
                              (trim (Mixer.product2 s)) (Mixer.mode s) in
  let s0 := Mixer.setResult None (Mixer.setError "" (Mixer.setLoading true s)) in
  ∃ w' rest,
    (s' ← try_catch
            (response ← apiService.generateCombo (Mixer.product1 s0)
                          (Mixer.product2 s0) (Some (Mixer.mode s0));
             mret (Mixer.setResult (GenerateData.combo response) s0))
            (λ err,
               mret (Mixer.setError (or_else (Some (message err)) fallback)
                                    s0));
     mret (Mixer.setLoading false s')) w
    = (Returned
         (match Backend.generate (backend w) body with
          | inr d =>
              Mixer.mk (Mixer.product1 s) (Mixer.product2 s) (Mixer.mode s)
                       false (GenerateData.combo d) ""
          | inl e =>
              Mixer.mk (Mixer.product1 s) (Mixer.product2 s) (Mixer.mode s)
                       false None
                       (or_else (AxiosError.error e)
                                "Failed to generate combo")
          end), w')
    ∧ calls_since w w' = POST_generate body :: rest.
Proof.
  intros body s0.
  destruct (generateCombo_run w (Mixer.product1 s) (Mixer.product2 s)
              (Some (Mixer.mode s))) as (w' & rest & Hrun & Hlog).
  exists w', rest. split.
  - unfold try_catch, mbind, Js_bind, mret, Js_ret.
    change (Mixer.product1 s0) with (Mixer.product1 s).
    change (Mixer.product2 s0) with (Mixer.product2 s).
    change (Mixer.mode s0) with (Mixer.mode s).
    rewrite Hrun. simpl default. fold body.
    destruct (Backend.generate (backend w) body) as [e|d]; simpl; [|done].
    assert (truthy (or_else (AxiosError.error e) "Failed to generate combo")
            = true) as Ht by by apply or_else_truthy.
    by rewrite Ht.
  - unfold calls_since. rewrite Hlog. by rewrite drop_app_length.
Qed.

Lemma validation_nonempty s :
  trim (Mixer.product1 s) ≠ EmptyString →
  trim (Mixer.product2 s) ≠ EmptyString →
  negb (truthy (trim (Mixer.product1 s)))
  || negb (truthy (trim (Mixer.product2 s))) = false.
Proof.
  intros H1 H2.
  destruct (truthy (trim (Mixer.product1 s))) eqn:T1;
    [|by apply truthy_false in T1].
  destruct (truthy (trim (Mixer.product2 s))) eqn:T2;
    [done|by apply truthy_false in T2].
Qed.

(** C3 at a failing input.  "Nike" and "Nike " are the same name once
    trimmed.  The component that compares the names as typed lets the pair
    through and posts "Nike" twice; the other component, which trims before
    it compares, stops with its validation message and requests nothing.
    This holds for every engine, backend, store and mode. *)
Theorem handleGenerate_posts_padded_duplicate {E : Engine}
    (w : World) (mode : string) :
  let s := Mixer.mk "Nike" "Nike " mode false None "" in
  (∃ rest,
     calls_of (BrandMixer.handleGenerate s) w
     = POST_generate (GenerateBody.mk "Nike" "Nike" mode) :: rest)
  ∧ BrandMixer2.handleGenerate s w
    = (Returned (Mixer.setError "Please select two different brands" s), w).
Proof.
  intros s. split.
  - destruct (mixer_generate_run "Failed to generate combo" s w)
      as (w' & rest & Hrun & Hcalls).
    exists rest. unfold calls_of, BrandMixer.handleGenerate.
    change (negb (truthy (trim (Mixer.product1 s)))
            || negb (truthy (trim (Mixer.product2 s)))) with false.
    cbv iota.
    rewrite decide_False.
    + rewrite Hrun. exact Hcalls.
    + simpl. rewrite !toLowerCase_ascii by reflexivity. discriminate.
  - unfold BrandMixer2.handleGenerate.
    change (negb (truthy (trim (Mixer.product1 s)))
            || negb (truthy (trim (Mixer.product2 s)))) with false.
    cbv iota. by rewrite decide_True.
Qed.

(** X15.  Once the inputs pass the validation of both components,
    [handleGenerate] (in either component, with the same outcome) never
    throws, starts with the POST carrying the trimmed names and the selected
    mode, and ends with [loading] off and the inputs as typed.  If the
    backend answered, [result] is the answer's combo and the error text is
    empty; if not, [result] is cleared and the error text is the backend's,
    or "Failed to generate combo": the fallback texts of the components
    themselves are never shown. *)
Theorem handleGenerate_outcomes {E : Engine} s w :
  trim (Mixer.product1 s) ≠ EmptyString →
  trim (Mixer.product2 s) ≠ EmptyString →
  toLowerCase (Mixer.product1 s) ≠ toLowerCase (Mixer.product2 s) →
  toLowerCase (trim (Mixer.product1 s))
  ≠ toLowerCase (trim (Mixer.product2 s)) →
  let body := GenerateBody.mk (trim (Mixer.product1 s))
                              (trim (Mixer.product2 s)) (Mixer.mode s) in
  ∃ w' rest,
    BrandMixer.handleGenerate s w
    = (Returned
         (match Backend.generate (backend w) body with
          | inr d =>
              Mixer.mk (Mixer.product1 s) (Mixer.product2 s) (Mixer.mode s)
                       false (GenerateData.combo d) ""
          | inl e =>
              Mixer.mk (Mixer.product1 s) (Mixer.product2 s) (Mixer.mode s)
                       false None
                       (or_else (AxiosError.error e)
                                "Failed to generate combo")
          end), w')
    ∧ BrandMixer2.handleGenerate s w = BrandMixer.handleGenerate s w
    ∧ calls_since w w' = POST_generate body :: rest.
Proof.
  intros H1 H2 Hraw Hdistinct body.
  pose proof (validation_nonempty s H1 H2) as Hne.
  destruct (mixer_generate_run "Failed to generate combo" s w)
    as (w' & rest & Hrun & Hcalls).
  destruct (mixer_generate_run "Failed to generate combo. Please try again."
              s w) as (w2 & rest2 & Hrun2 & _).
  exists w', rest.
  assert (BrandMixer.handleGenerate s w
          = (Returned
               (match Backend.generate (backend w) body with
                | inr d =>
                    Mixer.mk (Mixer.product1 s) (Mixer.product2 s)
                             (Mixer.mode s) false (GenerateData.combo d) ""
                | inl e =>
                    Mixer.mk (Mixer.product1 s) (Mixer.product2 s)
                             (Mixer.mode s) false None
                             (or_else (AxiosError.error e)
                                      "Failed to generate combo")
                end), w')) as Hfirst.
  { unfold BrandMixer.handleGenerate.
    rewrite Hne, decide_False by done. exact Hrun. }
  split; [exact Hfirst|]. split; [|exact Hcalls].
  rewrite Hfirst. unfold BrandMixer2.handleGenerate.
  rewrite Hne, decide_False by done.
  rewrite Hrun2. f_equal.
  (* both runs end in the same world: the one [generateCombo] leaves *)
  assert (w2 = (apiService.generateCombo (Mixer.product1 s)
                  (Mixer.product2 s) (Some (Mixer.mode s)) w).2
          ∧ w' = (apiService.generateCombo (Mixer.product1 s)
                    (Mixer.product2 s) (Some (Mixer.mode s)) w).2)
    as [-> ->]; [|done].
  revert Hrun Hrun2.
  unfold try_catch, mbind, Js_bind, mret, Js_ret. simpl.
  destruct (apiService.generateCombo (Mixer.product1 s) (Mixer.product2 s)
              (Some (Mixer.mode s)) w) as [[d|e] w0]; simpl;
    by intros [= _ <-] [= _ <-].
Qed.

Lemma handleGenerate_outcomes_witness :
  let s := Mixer.mk " Nike" "Adidas " "fusion" false None "old error" in
  (BrandMixer2.handleGenerate (E := ascii_engine) s
     (world_of ∅ true silent_backend)).1
  = Returned (Mixer.mk " Nike" "Adidas " "fusion" false None
                       "Failed to generate combo").
Proof.
  intros s.
  destruct (handleGenerate_outcomes (E := ascii_engine) s
              (world_of ∅ true silent_backend))
    as (w' & rest & H1 & H2 & _).
  - simpl. discriminate.
  - simpl. discriminate.
  - simpl. discriminate.
  - simpl. discriminate.
  - rewrite H2, H1. reflexivity.
Defined.

(** X16.  The two components disagree on names that differ only by case and
    surrounding white space.  The component that compares the trimmed names
    rejects them without a request; the one that compares the names as typed
    lets them through and posts the trimmed names, which are then equal up to
    case. *)
Theorem mixers_differ_on_padded_names {E : Engine} s w :
  trim (Mixer.product1 s) ≠ EmptyString →
  trim (Mixer.product2 s) ≠ EmptyString →
  toLowerCase (Mixer.product1 s) ≠ toLowerCase (Mixer.product2 s) →
  toLowerCase (trim (Mixer.product1 s))
  = toLowerCase (trim (Mixer.product2 s)) →
  BrandMixer2.handleGenerate s w
  = (Returned (Mixer.setError "Please select two different brands" s), w)
  ∧ ∃ rest,
      calls_of (BrandMixer.handleGenerate s) w
      = POST_generate (GenerateBody.mk (trim (Mixer.product1 s))
                                       (trim (Mixer.product2 s))
                                       (Mixer.mode s)) :: rest.
Proof.
  intros H1 H2 Hraw Htrimmed.
  pose proof (validation_nonempty s H1 H2) as Hne.
  split.
  - unfold BrandMixer2.handleGenerate. by rewrite Hne, decide_True.
  - destruct (mixer_generate_run "Failed to generate combo" s w)
      as (w' & rest & Hrun & Hcalls).
    exists rest. unfold calls_of, BrandMixer.handleGenerate.
    rewrite Hne, decide_False by done. by rewrite Hrun.
Qed.

Lemma mixers_differ_on_padded_names_witness :
  let s := Mixer.mk "Nike" " nike" "fusion" false None "" in
  ∃ rest,
    calls_of (BrandMixer.handleGenerate (E := ascii_engine) s)
             (world_of ∅ true silent_backend)
    = POST_generate (GenerateBody.mk "Nike" "nike" "fusion") :: rest.
Proof.
  intros s.
  destruct (mixers_differ_on_padded_names (E := ascii_engine) s
              (world_of ∅ true silent_backend))
    as (_ & rest & H).
  - simpl. discriminate.
  - simpl. discriminate.
  - simpl. discriminate.
  - reflexivity.
  - exists rest. exact H.
Defined.

(** X20.  Each component stops before any request, with one of the two
    validation messages in [error] and everything else as it was, whenever a
    name is empty once trimmed or the two names are equal up to case: as
    typed for the one component, once trimmed for the other. *)
Theorem handleGenerate_rejections {E : Engine} s w :
  let messages := ["Please enter both brand names";
                   "Please select two different brands"]%string in
  (trim (Mixer.product1 s) = EmptyString
   ∨ trim (Mixer.product2 s) = EmptyString
   ∨ toLowerCase (Mixer.product1 s) = toLowerCase (Mixer.product2 s) →
   ∃ msg, msg ∈ messages
          ∧ BrandMixer.handleGenerate s w
            = (Returned (Mixer.setError msg s), w))
  ∧ (trim (Mixer.product1 s) = EmptyString
     ∨ trim (Mixer.product2 s) = EmptyString
     ∨ toLowerCase (trim (Mixer.product1 s))
       = toLowerCase (trim (Mixer.product2 s)) →
     ∃ msg, msg ∈ messages
            ∧ BrandMixer2.handleGenerate s w
              = (Returned (Mixer.setError msg s), w)).
Proof.
  intros messages.
  unfold BrandMixer.handleGenerate, BrandMixer2.handleGenerate.
  destruct (negb (truthy (trim (Mixer.product1 s)))
            || negb (truthy (trim (Mixer.product2 s)))) eqn:Hempty.
  - split; intros _; eexists; (split; [apply list_elem_of_here|done]).
  - apply orb_false_elim in Hempty as [T1 T2].
    apply negb_false_iff in T1, T2.
    split; (intros [H|[H|H]];
      [by rewrite H in T1|by rewrite H in T2|]);
      rewrite decide_True by done; eexists;
      (split; [apply list_elem_of_further, list_elem_of_here|done]).
Qed.

Lemma handleGenerate_rejections_witness :
  let s := Mixer.mk "Nike" "nike" "fusion" false None "" in
  ∃ msg,
    BrandMixer.handleGenerate (E := ascii_engine) s
      (world_of ∅ true silent_backend)
    = (Returned (Mixer.setError msg s), world_of ∅ true silent_backend).
Proof.
  intros s.
  destruct (handleGenerate_rejections (E := ascii_engine) s
              (world_of ∅ true silent_backend)) as [H _].
  destruct H as (msg & _ & H).
  - right. right. reflexivity.
  - exists msg. exact H.
Defined.

(** ** What the operations leave alone *)

(** X17.  Whatever the backend and the store do, one [generateCombo] keeps
    every existing row as it is, adds at most one row, and does not change
    the total of votes. *)
Theorem generateCombo_adds_at_most_one_row w product1 product2 mode :
  let w' := after (apiService.generateCombo product1 product2 mode) w in
  (∀ id r, db w !! id = Some r → db w' !! id = Some r)
  ∧ (size (db w') = size (db w) ∨ size (db w') = S (size (db w)))
  ∧ sum_votes (Sql.select_votes (db w')) = sum_votes (Sql.select_votes (db w)).
Proof.
  intros w'. subst w'. unfold after.
  destruct (generateCombo_db product1 product2 mode w)
    as [->|(id & r & Hfresh & Hzero & ->)].
  - split; [done|]. split; [by left|done].
  - split; [|split].
    + intros id' r' Hr'. rewrite lookup_insert_ne; [done|]. congruence.
    + right. by apply map_size_insert_None.
    + rewrite sum_votes_insert_fresh by done. rewrite Hzero. simpl. lia.
Qed.

(** X18.  Reading never writes: [getLeaderboard] and [getStats] leave the
    table exactly as it was, whether the store answers or the fallbacks
    run. *)
Theorem reads_leave_the_table w limit :
  db (after (apiService.getLeaderboard limit) w) = db w
  ∧ db (after apiService.getStats w) = db w.
Proof. unfold after. split; [apply getLeaderboard_db|apply getStats_db]. Qed.

(** X19.  If the mixer shows the number of votes the row has, it still does
    after a vote that the store accepts: the shown count and the row's
    [votes] are both the old number plus one. *)
Theorem handleVote_stays_in_step s w combo id r v :
  Mixer.result s = Some combo →
  Combo.id combo = Some id →
  Combo.votes combo = Some v →
  db_up w = true →
  db w !! id = Some r →
  Row.votes r = Some v →
  int4_min ≤ v < int4_max →
  ∃ s' w' combo' r',
    BrandMixer2.handleVote s w = (Returned s', w')
    ∧ Mixer.result s' = Some combo'
    ∧ db w' !! id = Some r'
    ∧ Combo.votes combo' = Some (v + 1)
    ∧ Row.votes r' = Some (v + 1).
Proof.
  intros Hres Hid Hshown Hup Hrow Hv Hrange.
  pose proof (vote_step w id r v Hup Hrow Hv Hrange) as Hrun.
  eexists _, _, _, _. split; [|split; [|split; [|split]]].
  - unfold BrandMixer2.handleVote, try_catch, mbind at 2, Js_bind.
    rewrite Hres. simpl. rewrite Hid, Hrun. reflexivity.
  - reflexivity.
  - simpl. apply lookup_insert_eq.
  - simpl. by rewrite Hshown.
  - done.
Qed.

Lemma handleVote_stays_in_step_witness :
  let combo := Combo.mk (Some 3%N) (Some "Nikidas"%string) None None None
                        None None (Some 9) in
  let s := Mixer.mk "Nike" "Adidas" "fusion" false (Some combo) "" in
  ∃ s' w',
    BrandMixer2.handleVote s (world_of four_rows true silent_backend)
    = (Returned s', w')
    ∧ (Mixer.result s' ≫= Combo.votes) = Some 10
    ∧ Row.votes <$> db w' !! 3%N = Some (Some 10).
Proof.
  intros combo s.
  destruct (handleVote_stays_in_step s
              (world_of four_rows true silent_backend) combo 3%N
              (sample_row (Some 9)) 9)
    as (s' & w' & combo' & r' & H1 & H2 & H3 & H4 & H5).
  - reflexivity.
  - reflexivity.
  - reflexivity.
  - reflexivity.
  - reflexivity.
  - reflexivity.
  - unfold int4_min, int4_max. lia.
  - exists s', w'. split; [exact H1|]. split.
    + rewrite H2. simpl. exact H4.
    + rewrite H3. simpl. by rewrite H5.
Defined.
